(** * flash.data.batch: the pre/post-processing pipeline and [default_uncollate]

    A shallow embedding of [flash/data/batch.py]:
    - Python values (tensors, mappings, namedtuples, sequences, strings, ...)
      as the inductive type [PyVal];
    - the two [torch] primitives the module relies on, [torch.unbind] and
      [torch.stack], over row-major tensors;
    - [default_uncollate], by recursion on an explicit recursion budget that
      is shown to be always sufficient;
    - the classes [_Sequential], [_PreProcessor] and [_PostProcessor] as
      records of callables, their [forward] methods in a state-and-exception
      monad that also records every call made to a user callable. *)

From Stdlib Require Import String Bool Arith ZArith Lia List.
Import ListNotations.
Open Scope string_scope.
Open Scope list_scope.

Set Implicit Arguments.
Set Warnings "-register-all".

(* ================================================================== *)
(** ** Exceptions and outcomes *)

Inductive Exn : Type :=
| TypeError (msg : string)
| RuntimeError (msg : string)
| IndexError (msg : string)
| MisconfigurationException (msg : string)
| UserException (msg : string).

(** The outcome of evaluating a Python expression: a value or a raised
    exception. *)
Inductive Outcome (A : Type) : Type :=
| Ret (a : A)
| Raise (e : Exn).
Arguments Ret {A} a.
Arguments Raise {A} e.

Definition obind {A B} (o : Outcome A) (k : A -> Outcome B) : Outcome B :=
  match o with
  | Ret a => k a
  | Raise e => Raise e
  end.

Notation "x <~ e ;; k" := (obind e (fun x => k))
  (at level 61, e at next level, right associativity).

(** Left-to-right evaluation of a comprehension [[f x for x in l]]: the first
    exception aborts the whole comprehension. *)
Fixpoint omap {A B} (f : A -> Outcome B) (l : list A) : Outcome (list B) :=
  match l with
  | [] => Ret []
  | x :: l' =>
      obind (f x) (fun y => obind (omap f l') (fun ys => Ret (y :: ys)))
  end.

(* ================================================================== *)
(** ** Tensors *)

(** A tensor is its shape and its elements in row-major order.  The element
    type plays no role in this module; elements are integers here. *)
Record Tensor : Type := mkTensor {
  shape : list nat;
  data : list Z
}.

Definition numel (s : list nat) : nat := fold_right Nat.mul 1 s.

(** The representation invariant of a tensor. *)
Definition tensor_wf (t : Tensor) : Prop :=
  length (data t) = numel (shape t).

(** [chunks n size l]: the first [n] consecutive blocks of [size] elements. *)
Fixpoint chunks (n size : nat) (l : list Z) : list (list Z) :=
  match n with
  | O => []
  | S k => firstn size l :: chunks k size (skipn size l)
  end.

Definition unbind_0d_msg : string :=
  "Dimension specified as 0 but tensor has no dimensions".

(** [torch.unbind(t, 0)]: removes the first dimension and returns all slices
    along it; a 0-dimensional tensor has no dimension to remove. *)
Definition torch_unbind (t : Tensor) : Outcome (list Tensor) :=
  match shape t with
  | [] => Raise (IndexError unbind_0d_msg)
  | n :: rest => Ret (map (mkTensor rest) (chunks n (numel rest) (data t)))
  end.

(** [t[i]], the [i]-th slice of [t] along dimension 0, by index arithmetic. *)
Definition tensor_select (t : Tensor) (i : nat) : Tensor :=
  let rest := tl (shape t) in
  mkTensor rest (firstn (numel rest) (skipn (i * numel rest) (data t))).

Definition shape_eqb (s1 s2 : list nat) : bool :=
  if list_eq_dec Nat.eq_dec s1 s2 then true else false.

(** [torch.stack(ts, 0)]: concatenates equally shaped tensors along a new
    first dimension. *)
Definition torch_stack (ts : list Tensor) : Outcome Tensor :=
  match ts with
  | [] => Raise (RuntimeError "stack expects a non-empty TensorList")
  | t0 :: _ =>
      if forallb (fun t => shape_eqb (shape t) (shape t0)) ts
      then Ret (mkTensor (length ts :: shape t0) (flat_map data ts))
      else Raise (RuntimeError "stack expects each tensor to be equal size")
  end.

(* ================================================================== *)
(** ** Python values *)

Inductive Atom : Type :=
| ANone
| ABool (b : bool)
| AInt (z : Z)
| AObject (cls : string).

(** Sequence classes: the two builtin containers and any other class
    registered as a [Sequence] (named by its class). *)
Inductive SeqType : Type :=
| TList
| TTuple
| TSeqClass (cls : string).

(** Python values, as far as this module distinguishes them.  A mapping keeps
    its class and its items in iteration order, under string keys; a
    namedtuple keeps its class, its [_fields] and its values; a set stands
    for the iterables that are neither mappings nor sequences. *)
Inductive PyVal : Type :=
| VTensor (t : Tensor)
| VMapping (cls : string) (items : list (string * PyVal))
| VNamedTuple (cls : string) (fields : list string) (vals : list PyVal)
| VSeq (ty : SeqType) (items : list PyVal)
| VStr (s : string)
| VSet (items : list PyVal)
| VAtom (a : Atom).

Inductive PyType : Type :=
| TyTensor
| TyMapping (cls : string)
| TyNamedTuple (cls : string) (fields : list string)
| TySeq (ty : SeqType)
| TyStr
| TySet
| TyNone
| TyBool
| TyInt
| TyObject (cls : string).

(** [type(v)] *)
Definition py_type (v : PyVal) : PyType :=
  match v with
  | VTensor _ => TyTensor
  | VMapping cls _ => TyMapping cls
  | VNamedTuple cls fields _ => TyNamedTuple cls fields
  | VSeq ty _ => TySeq ty
  | VStr _ => TyStr
  | VSet _ => TySet
  | VAtom ANone => TyNone
  | VAtom (ABool _) => TyBool
  | VAtom (AInt _) => TyInt
  | VAtom (AObject cls) => TyObject cls
  end.

(** The [isinstance] tests of [default_uncollate].  A namedtuple is a tuple,
    hence a [Sequence]; a string is a [Sequence] too. *)
Definition isinstance_Tensor (v : PyVal) : bool :=
  match v with VTensor _ => true | _ => false end.

Definition isinstance_Mapping (v : PyVal) : bool :=
  match v with VMapping _ _ => true | _ => false end.

Definition is_namedtuple (v : PyVal) : bool :=
  match v with VNamedTuple _ _ _ => true | _ => false end.

Definition isinstance_str (v : PyVal) : bool :=
  match v with VStr _ => true | _ => false end.

Definition isinstance_Sequence (v : PyVal) : bool :=
  match v with
  | VSeq _ _ | VNamedTuple _ _ _ | VStr _ => true
  | _ => false
  end.

Fixpoint chars (s : string) : list string :=
  match s with
  | EmptyString => []
  | String c s' => String c EmptyString :: chars s'
  end.

(** [iter(v)] run to exhaustion: the items a [for] loop or [zip] sees. *)
Definition py_iter (v : PyVal) : Outcome (list PyVal) :=
  match v with
  | VTensor t =>
      match shape t with
      | [] => Raise (TypeError "iteration over a 0-d tensor")
      | _ => obind (torch_unbind t) (fun l => Ret (map VTensor l))
      end
  | VMapping _ items => Ret (map (fun kv => VStr (fst kv)) items)
  | VNamedTuple _ _ vals => Ret vals
  | VSeq _ items => Ret items
  | VStr s => Ret (map VStr (chars s))
  | VSet items => Ret items
  | VAtom _ => Raise (TypeError "object is not iterable")
  end.

(** [zip] over the unpacked columns: tuples of the i-th items, as long as every column has one;
    no column at all gives no tuple. *)
Fixpoint zip_star (n : nat) (cols : list (list PyVal)) : list (list PyVal) :=
  match n with
  | O => []
  | S k =>
      map (fun c => hd (VAtom ANone) c) cols :: zip_star k (map (@tl PyVal) cols)
  end.

Definition min_length (cols : list (list PyVal)) : nat :=
  match cols with
  | [] => 0
  | c :: cs => fold_right (fun c' m => Nat.min (length c') m) (length c) cs
  end.

Definition py_zip (cols : list (list PyVal)) : list (list PyVal) :=
  zip_star (min_length cols) cols.

(** [dict(pairs)]: a key keeps the position of its first occurrence and the
    value of its last. *)
Fixpoint dict_set (k : string) (v : PyVal) (d : list (string * PyVal))
  : list (string * PyVal) :=
  match d with
  | [] => [(k, v)]
  | (k', v') :: d' =>
      if String.eqb k k' then (k, v) :: d' else (k', v') :: dict_set k v d'
  end.

Definition dict_of (pairs : list (string * PyVal)) : list (string * PyVal) :=
  fold_left (fun d kv => dict_set (fst kv) (snd kv) d) pairs [].

(** Calling a namedtuple class with the given [_fields] on unpacked
    positional arguments. *)
Definition namedtuple_new (cls : string) (fields : list string)
  (args : list PyVal) : Outcome PyVal :=
  if Nat.eqb (length args) (length fields)
  then Ret (VNamedTuple cls fields args)
  else Raise (TypeError "__new__() wrong number of positional arguments").

(** Calling a mapping class on a dict.  [dict], [OrderedDict] and the classes
    that follow their constructor protocol build the mapping of that class
    with the dict's items; [collections.defaultdict] takes its default factory
    first and rejects a dict there. *)
Definition mapping_new (cls : string) (d : list (string * PyVal))
  : Outcome PyVal :=
  if String.eqb cls "defaultdict"
  then Raise (TypeError "first argument must be callable or None")
  else Ret (VMapping cls d).

(* ================================================================== *)
(** ** [default_uncollate] *)

(** Evaluation under a recursion budget: [None] when the budget is spent. *)
Definition fbind {A B} (o : option (Outcome A))
  (k : A -> option (Outcome B)) : option (Outcome B) :=
  match o with
  | None => None
  | Some (Raise e) => Some (Raise e)
  | Some (Ret a) => k a
  end.

Fixpoint fmap {A B} (f : A -> option (Outcome B)) (l : list A)
  : option (Outcome (list B)) :=
  match l with
  | [] => Some (Ret [])
  | x :: l' =>
      fbind (f x) (fun y => fbind (fmap f l') (fun ys => Some (Ret (y :: ys))))
  end.

Notation "x <~~ e ;; k" := (fbind e (fun x => k))
  (at level 61, e at next level, right associativity).

(** The body of [default_uncollate], clause by clause, in the order of the
    source: [Tensor], [Mapping], namedtuple, then any other [Sequence] that is
    not a string; everything else is returned as it is.  The tuples produced
    by [zip] are plain tuples, so the recursive call on one of them takes the
    [Sequence] clause. *)
Fixpoint default_uncollate_fuel (fuel : nat) (batch : PyVal)
  : option (Outcome PyVal) :=
  match fuel with
  | O => None
  | S fuel' =>
      match batch with
      | VTensor t =>
          (* isinstance(batch, Tensor): list(torch.unbind(batch, 0)) *)
          l <~~ Some (torch_unbind t) ;;
          Some (Ret (VSeq TList (map VTensor l)))
      | VMapping cls items =>
          (* [batch_type(dict(zip(batch, default_uncollate(t))))
              for t in zip( *batch.values() )] *)
          cols <~~ Some (omap py_iter (map snd items)) ;;
          rows <~~ fmap (fun t =>
                    r <~~ default_uncollate_fuel fuel' (VSeq TTuple t) ;;
                    vs <~~ Some (py_iter r) ;;
                    Some (mapping_new cls
                            (dict_of (combine (map fst items) vs))))
                  (py_zip cols) ;;
          Some (Ret (VSeq TList rows))
      | VNamedTuple cls fields vals =>
          (* [batch_type( *default_uncollate(sample) ) for sample in zip( *batch )] *)
          cols <~~ Some (omap py_iter vals) ;;
          rows <~~ fmap (fun sample =>
                    r <~~ default_uncollate_fuel fuel' (VSeq TTuple sample) ;;
                    args <~~ Some (py_iter r) ;;
                    Some (namedtuple_new cls fields args))
                  (py_zip cols) ;;
          Some (Ret (VSeq TList rows))
      | VSeq _ items =>
          (* [default_uncollate(sample) for sample in batch] *)
          l <~~ fmap (default_uncollate_fuel fuel') items ;;
          Some (Ret (VSeq TList l))
      | VStr _ | VSet _ | VAtom _ =>
          (* return batch *)
          Some (Ret batch)
      end
  end.

(** A recursion budget that always suffices (see [default_uncollate_fuel_enough]). *)
Fixpoint need (v : PyVal) : nat :=
  match v with
  | VMapping _ items => 2 + list_max (map (fun kv => need (snd kv)) items)
  | VNamedTuple _ _ vals => 2 + list_max (map need vals)
  | VSeq _ items => 1 + list_max (map need items)
  | VSet items => 1 + list_max (map need items)
  | VTensor _ | VStr _ | VAtom _ => 1
  end.

Definition default_uncollate (batch : PyVal) : Outcome PyVal :=
  match default_uncollate_fuel (need batch) batch with
  | Some o => o
  | None => Raise (RuntimeError "recursion budget exhausted")
  end.

(* ================================================================== *)
(** ** Callables and the pipeline monad *)

(** The attributes through which the pipeline classes call out. *)
Inductive Attr : Type :=
| A_pre_tensor_transform
| A_to_tensor_transform
| A_post_tensor_transform
| A_contains_any_tensor
| A_collate_fn
| A_per_sample_transform
| A_per_batch_transform
| A_uncollate_fn
| A_save_fn.

(** One call made by a [forward] method: the attribute called and its
    argument. *)
Inductive Event : Type :=
| Call (a : Attr) (arg : PyVal).

Section Monad.

(** The state the user-supplied callables may read and write. *)
Variable W : Type.

(** A user-supplied callable: it returns or raises, and may change [W]. *)
Definition Callable : Type := PyVal -> W -> Outcome PyVal * W.

(** Computations of the [forward] methods: they thread the user state and
    the trace of the calls made so far. *)
Definition M (A : Type) : Type :=
  W * list Event -> Outcome A * (W * list Event).

Definition ret {A} (a : A) : M A := fun st => (Ret a, st).

Definition raise {A} (e : Exn) : M A := fun st => (Raise e, st).

Definition bind {A B} (m : M A) (k : A -> M B) : M B :=
  fun st =>
    match m st with
    | (Ret a, st') => k a st'
    | (Raise e, st') => (Raise e, st')
    end.

Definition lift {A} (o : Outcome A) : M A := fun st => (o, st).

(** [self.a(x)] for a callable attribute [a] holding [f]. *)
Definition call (a : Attr) (f : Callable) (x : PyVal) : M PyVal :=
  fun st =>
    let (r, w') := f x (fst st) in
    (r, (w', snd st ++ [Call a x])).

(** A comprehension [[f(x) for x in l]] in the monad. *)
Fixpoint mapM {A B} (f : A -> M B) (l : list A) : M (list B) :=
  match l with
  | [] => ret []
  | x :: l' =>
      bind (f x) (fun y => bind (mapM f l') (fun ys => ret (y :: ys)))
  end.

(** Constructors of the classes other than [list] and [tuple]. *)
Variable class_new : PyType -> Callable.

(** [ty(arg)]: calling a type on one argument.  [list] and [tuple] collect
    the items of their argument; a namedtuple class takes the argument as the
    value of its first field and wants one argument per field. *)
Definition type_call (ty : PyType) (arg : PyVal) : M PyVal :=
  match ty with
  | TySeq TList => bind (lift (py_iter arg)) (fun l => ret (VSeq TList l))
  | TySeq TTuple => bind (lift (py_iter arg)) (fun l => ret (VSeq TTuple l))
  | TyNamedTuple cls fields => lift (namedtuple_new cls fields [arg])
  | _ => fun st => let (r, w') := class_new ty arg (fst st) in (r, (w', snd st))
  end.

(** Kleisli composition of callables: [g(f(x))]. *)
Definition then_call (f g : Callable) : Callable :=
  fun x w =>
    match f x w with
    | (Ret y, w') => g y w'
    | (Raise e, w') => (Raise e, w')
    end.

(** [ys] are the results of calling [f] on each of [xs] in turn, every call
    returning, taking the user state from [w] to [w']. *)
Inductive each_called (f : Callable)
  : W -> list PyVal -> list PyVal -> W -> Prop :=
| each_called_nil w : each_called f w [] [] w
| each_called_cons w x y w1 xs ys w2 :
    f x w = (Ret y, w1) ->
    each_called f w1 xs ys w2 ->
    each_called f w (x :: xs) (y :: ys) w2.

End Monad.

Arguments ret {W A} a _.
Arguments raise {W A} e _.

Notation "x <- e ;; k" := (bind e (fun x => k))
  (at level 61, e at next level, right associativity).

(** The classes below store their callables through
    [flash.data.utils.convert_to_modules], which wraps a callable into a module
    that calls it: the stored attribute behaves as the callable it was built
    from, and is modelled by it. *)

(** The message of the tensor check of [_Sequential.forward]. *)
Definition overriden_msg : string :=
  "When ``to_tensor_transform`` is overriden, ``DataPipeline`` expects the outputs to be ``tensors``".

(* ================================================================== *)
(** ** [_Sequential] *)

Module _Sequential.
Section Def.

Variable W : Type.

(** [flash.data.utils._contains_any_tensor], a pure predicate on values. *)
Variable _contains_any_tensor : PyVal -> bool.

Record t : Type := mk {
  pre_tensor_transform : Callable W;
  to_tensor_transform : Callable W;
  post_tensor_transform : Callable W;
  assert_contains_tensor : bool
}.

(** The call [_contains_any_tensor(sample)], recorded in the trace. *)
Definition contains_check (sample : PyVal) : M W bool :=
  fun st =>
    (Ret (_contains_any_tensor sample),
     (fst st, snd st ++ [Call A_contains_any_tensor sample])).

Definition forward (self : t) (sample : PyVal) : M W PyVal :=
  sample <- call A_pre_tensor_transform (pre_tensor_transform self) sample ;;
  sample <- call A_to_tensor_transform (to_tensor_transform self) sample ;;
  _ <- (if assert_contains_tensor self then
          c <- contains_check sample ;;
          if negb c
          then raise (MisconfigurationException overriden_msg)
          else ret tt
        else ret tt) ;;
  sample <- call A_post_tensor_transform (post_tensor_transform self) sample ;;
  ret sample.

End Def.
End _Sequential.

(* ================================================================== *)
(** ** [_PreProcessor] *)

Module _PreProcessor.
Section Def.

Variable W : Type.
Variable class_new : PyType -> Callable W.

Record t : Type := mk {
  collate_fn : Callable W;
  per_sample_transform : Callable W;
  per_batch_transform : Callable W;
  stage : option string;
  apply_per_sample_transform : bool
}.

Definition forward (self : t) (samples : PyVal) : M W PyVal :=
  samples <- (if apply_per_sample_transform self then
                items <- lift (py_iter samples) ;;
                l <- mapM (call A_per_sample_transform
                             (per_sample_transform self)) items ;;
                let samples := VSeq TList l in
                samples <- type_call class_new (py_type samples) samples ;;
                call A_collate_fn (collate_fn self) samples
              else ret samples) ;;
  samples <- call A_per_batch_transform (per_batch_transform self) samples ;;
  ret samples.

End Def.
End _PreProcessor.

(* ================================================================== *)
(** ** [_PostProcessor] *)

Module _PostProcessor.
Section Def.

Variable W : Type.
Variable class_new : PyType -> Callable W.

(** A stored [save_fn]: what calling it does, and its truth value.  A module
    is true unless it is a container without members, as an empty
    [nn.Sequential] is. *)
Record SaveFn : Type := mkSaveFn {
  save_call : Callable W;
  save_bool : bool
}.

Record t : Type := mk {
  uncollate_fn : Callable W;
  per_batch_transform : Callable W;
  per_sample_transform : Callable W;
  save_fn : option SaveFn;
  save_per_sample : bool
}.

Definition forward (self : t) (batch : PyVal) : M W PyVal :=
  transformed <- call A_per_batch_transform (per_batch_transform self) batch ;;
  uncollated <- call A_uncollate_fn (uncollate_fn self) transformed ;;
  items <- lift (py_iter uncollated) ;;
  l <- mapM (call A_per_sample_transform (per_sample_transform self)) items ;;
  final_preds <- type_call class_new (py_type uncollated) (VSeq TList l) ;;
  (* if self.save_fn: the truth value of [None] is false *)
  match save_fn self with
  | Some save =>
      if save_bool save then
        if save_per_sample self then
          preds <- lift (py_iter final_preds) ;;
          _ <- mapM (call A_save_fn (save_call save)) preds ;;
          ret (VAtom ANone)
        else
          _ <- call A_save_fn (save_call save) final_preds ;;
          ret (VAtom ANone)
      else ret final_preds
  | None => ret final_preds
  end.

End Def.
End _PostProcessor.

(* ================================================================== *)
(** ** Example instances *)

Module Examples.

(** User state for the examples: the number of calls made so far. *)
Definition counting (f : PyVal -> Outcome PyVal) : Callable nat :=
  fun x w => (f x, S w).

Definition identity : Callable nat := counting Ret.

(** No class other than [list] and [tuple] can be constructed. *)
Definition no_class_new : PyType -> Callable nat :=
  fun _ _ w => (Raise (TypeError "cannot create instances"), w).

(** An instance of the tensor predicate: a tensor, or a sequence,
    namedtuple or mapping holding one. *)
Fixpoint any_tensor (v : PyVal) : bool :=
  match v with
  | VTensor _ => true
  | VSeq _ items => existsb any_tensor items
  | VNamedTuple _ _ vals => existsb any_tensor vals
  | VMapping _ items => existsb (fun kv => any_tensor (snd kv)) items
  | VStr _ | VSet _ | VAtom _ => false
  end.

(** [torch.tensor] on an integer; other values pass through. *)
Definition to_tensor : Callable nat :=
  counting (fun v =>
    match v with
    | VAtom (AInt z) => Ret (VTensor (mkTensor [] [z]))
    | _ => Ret v
    end).

(** Collation of a sequence of tensors by [torch.stack]. *)
Definition collate_stack : Callable nat :=
  counting (fun v =>
    items <~ py_iter v ;;
    ts <~ omap (fun x => match x with
                         | VTensor t => Ret t
                         | _ => Raise (TypeError "expected Tensor")
                         end) items ;;
    t <~ torch_stack ts ;;
    Ret (VTensor t)).

(** Sample values. *)
Definition one : PyVal := VAtom (AInt 1).

Definition two : PyVal := VAtom (AInt 2).

Definition t1 : PyVal := VTensor (mkTensor [] [1%Z]).

Definition t2 : PyVal := VTensor (mkTensor [] [2%Z]).

Definition t12 : PyVal := VTensor (mkTensor [2] [1; 2]%Z).

Definition sequential (check : bool) : _Sequential.t nat :=
  _Sequential.mk identity identity identity check.

Definition preprocessor (apply : bool) : _PreProcessor.t nat :=
  _PreProcessor.mk collate_stack to_tensor identity None apply.

Definition postprocessor : _PostProcessor.t nat :=
  _PostProcessor.mk (counting default_uncollate) identity identity None false.

End Examples.

(* ================================================================== *)
(** ** Notions used to state further properties *)

(** The values [default_uncollate] returns as they are. *)
Definition fallthrough (v : PyVal) : bool :=
  match v with
  | VStr _ | VSet _ | VAtom _ => true
  | VTensor _ | VMapping _ _ | VNamedTuple _ _ _ | VSeq _ _ => false
  end.

(** All the slices [t[0]], ..., [t[n-1]] of a tensor along dimension 0. *)
Definition slices (t : Tensor) : list Tensor :=
  map (tensor_select t) (seq 0 (hd 0 (shape t))).

(** A callable that leaves the user state alone. *)
Definition pure_callable {W : Type} (f : PyVal -> Outcome PyVal) : Callable W :=
  fun x w => (f x, w).

(* ================================================================== *)
(** ** The task modules: exceptions and results *)

(** What the code of the task modules can raise: an exception of the
    builtins modelled so far, or one of two more. *)
Inductive PyExn : Type :=
| Builtin (e : Exn)
| ValueError (msg : string)
| AttributeError (msg : string).

Inductive Result (A : Type) : Type :=
| Done (a : A)
| Failed (e : PyExn).
Arguments Done {A} a.
Arguments Failed {A} e.

Definition rbind {A B} (r : Result A) (k : A -> Result B) : Result B :=
  match r with
  | Done a => k a
  | Failed e => Failed e
  end.

Definition of_outcome {A} (o : Outcome A) : Result A :=
  match o with
  | Ret a => Done a
  | Raise e => Failed (Builtin e)
  end.

(** [len(v)] *)
Definition py_len (v : PyVal) : Outcome nat :=
  match v with
  | VTensor t =>
      match shape t with
      | [] => Raise (TypeError "len() of a 0-d tensor")
      | n :: _ => Ret n
      end
  | VMapping _ items => Ret (length items)
  | VNamedTuple _ _ vals => Ret (length vals)
  | VSeq _ items => Ret (length items)
  | VStr s => Ret (String.length s)
  | VSet items => Ret (length items)
  | VAtom _ => Raise (TypeError "object has no len()")
  end.

(* ================================================================== *)
(** ** [TabularClassifier]: the categorical arguments of [TabNet]

    [TabularClassifier.__init__] derives three arguments of the [TabNet]
    constructor from [embedding_sizes]:
    [cat_dims, cat_emb_dim = zip( *embedding_sizes ) if len(embedding_sizes)
    else ([], [])], then [cat_idxs=list(range(len(embedding_sizes)))],
    [cat_dims=list(cat_dims)] and [cat_emb_dim=list(cat_emb_dim)]. *)

Module TabularClassifier.

(** [a, b = rows]: unpacking into exactly two targets. *)
Definition unpack2 (rows : list (list PyVal))
  : Result (list PyVal * list PyVal) :=
  match rows with
  | [a; b] => Done (a, b)
  | [] | [_] => Failed (ValueError "not enough values to unpack (expected 2)")
  | _ :: _ :: _ :: _ =>
      Failed (ValueError "too many values to unpack (expected 2)")
  end.

Record CatArgs : Type := mkCatArgs {
  cat_idxs : list nat;
  cat_dims : list PyVal;
  cat_emb_dim : list PyVal
}.

Definition categorical_arguments (embedding_sizes : PyVal) : Result CatArgs :=
  rbind (of_outcome (py_len embedding_sizes)) (fun n =>
  rbind (if Nat.eqb n 0 then Done ([], [])
         else
           rbind (of_outcome (py_iter embedding_sizes)) (fun tuples =>
           rbind (of_outcome (omap py_iter tuples)) (fun cols =>
           unpack2 (py_zip cols)))) (fun dims =>
  Done (mkCatArgs (seq 0 n) (fst dims) (snd dims)))).

(** The tuple [(a, b)]. *)
Definition pair_value (p : PyVal * PyVal) : PyVal :=
  VSeq TTuple [fst p; snd p].

End TabularClassifier.

(* ================================================================== *)
(** ** [ImageEmbedder] *)

(** The largest element of a non-empty list. *)
Definition list_max_Z (l : list Z) : Z :=
  match l with
  | [] => 0%Z
  | x :: l' => fold_left Z.max l' x
  end.

(** [torch.max(t, dim=-1)[0]]: the maxima along the last dimension, which is
    removed.  A dimension of size 0 cannot be reduced; a 0-d tensor is its own
    maximum. *)
Definition torch_max_last (t : Tensor) : Result Tensor :=
  match rev (shape t) with
  | [] => Done t
  | k :: outer =>
      if Nat.eqb k 0
      then Failed (Builtin (IndexError
                     "max(): Expected reduction dim to have non-zero size."))
      else Done (mkTensor (rev outer)
                   (map list_max_Z (chunks (numel (rev outer)) k (data t))))
  end.

Module ImageEmbedder.

(** The two pooling functions [__init__] accepts. *)
Inductive PoolingFn : Type :=
| torch_max
| torch_mean.

Section Def.

Variable W : Type.

(** [torch.mean(t, dim=-1)], left abstract: it computes in floating point. *)
Variable torch_mean_last : Tensor -> Result Tensor.

Record t : Type := mk {
  backbone : Callable W;
  head : Callable W;
  embedding_dim : option Z;
  pooling_fn : PoolingFn
}.

Definition apply_pool (self : t) (x : PyVal) : Result PyVal :=
  match x with
  | VTensor tx =>
      match pooling_fn self with
      | torch_max =>
          (* torch.max also returns argmax *)
          rbind (torch_max_last tx) (fun tx =>
          rbind (torch_max_last tx) (fun tx => Done (VTensor tx)))
      | torch_mean =>
          rbind (torch_mean_last tx) (fun tx =>
          rbind (torch_mean_last tx) (fun tx => Done (VTensor tx)))
      end
  | _ => Failed (Builtin (TypeError "pooling expects a Tensor"))
  end.

(** [isinstance(x, tuple)]: plain tuples and namedtuples. *)
Definition isinstance_tuple (v : PyVal) : bool :=
  match v with
  | VSeq TTuple _ | VNamedTuple _ _ _ => true
  | _ => false
  end.

(** [x[-1]] on a tuple. *)
Definition last_item (v : PyVal) : Result PyVal :=
  match v with
  | VSeq _ items | VNamedTuple _ _ items =>
      match rev items with
      | [] => Failed (Builtin (IndexError "tuple index out of range"))
      | y :: _ => Done y
      end
  | _ => Failed (Builtin (TypeError "object is not subscriptable"))
  end.

(** [x.dim()]: only tensors have the method. *)
Definition py_dim (v : PyVal) : Result nat :=
  match v with
  | VTensor tx => Done (length (shape tx))
  | _ => Failed (AttributeError "object has no attribute 'dim'")
  end.

(** The truth value of [self.embedding_dim]. *)
Definition truthy (d : option Z) : bool :=
  match d with
  | None => false
  | Some z => negb (Z.eqb z 0)
  end.

Definition forward (self : t) (x : PyVal) (w : W) : Result PyVal * W :=
  match backbone self x w with
  | (Raise e, w1) => (Failed (Builtin e), w1)
  | (Ret x, w1) =>
      (* bolts ssl models return lists *)
      match (if isinstance_tuple x then last_item x else Done x) with
      | Failed e => (Failed e, w1)
      | Done x =>
          match py_dim x with
          | Failed e => (Failed e, w1)
          | Done d =>
              match (if Nat.eqb d 4 && truthy (embedding_dim self)
                     then apply_pool self x else Done x) with
              | Failed e => (Failed e, w1)
              | Done x =>
                  let (r, w2) := head self x w1 in (of_outcome r, w2)
              end
          end
      end
  end.

End Def.
End ImageEmbedder.

(** Further example instances. *)
Module MoreExamples.

Import Examples.

(** A transform that rejects the sample [2]. *)
Definition rejecting : Callable nat :=
  counting (fun v =>
    match v with
    | VAtom (AInt 2%Z) => Raise (UserException "bad sample")
    | _ => Ret v
    end).

Definition sequential_rejecting_pre : _Sequential.t nat :=
  _Sequential.mk rejecting identity identity false.

Definition sequential_rejecting_to : _Sequential.t nat :=
  _Sequential.mk identity rejecting identity false.

Definition preprocessor_rejecting : _PreProcessor.t nat :=
  _PreProcessor.mk collate_stack rejecting identity None true.

Definition postprocessor_saving (per_sample : bool) : _PostProcessor.t nat :=
  _PostProcessor.mk (counting default_uncollate) identity identity
    (Some (_PostProcessor.mkSaveFn identity true)) per_sample.

(** A [save_fn] that is false as a truth value, as an empty [nn.Sequential]. *)
Definition postprocessor_empty_saver : _PostProcessor.t nat :=
  _PostProcessor.mk (counting default_uncollate) identity identity
    (Some (_PostProcessor.mkSaveFn identity false)) false.

(** The namedtuple [Point(x=1, y=2)]. *)
Definition point : PyVal :=
  VNamedTuple "Point" ["x"; "y"] [VAtom (AInt 1); VAtom (AInt 2)].

(** A post-processor whose [uncollate_fn] hands its input back. *)
Definition postprocessor_no_uncollate : _PostProcessor.t nat :=
  _PostProcessor.mk identity identity identity None false.

Definition postprocessor_default : _PostProcessor.t nat :=
  _PostProcessor.mk (pure_callable default_uncollate) identity identity
    None false.

Definition three : PyVal := VAtom (AInt 3).

(** An embedder whose backbone returns [out] whatever its input, with the
    identity as head. *)
Definition embedder (pool : ImageEmbedder.PoolingFn) (dim : option Z)
  (out : PyVal) : ImageEmbedder.t nat :=
  ImageEmbedder.mk (counting (fun _ => Ret out)) identity dim pool.

(** A stand-in for [torch.mean], which the examples do not use. *)
Definition no_mean : Tensor -> Result Tensor :=
  fun _ => Failed (Builtin (RuntimeError "mean is not used"))%string.

(** One image with one channel of 2 x 2 values. *)
Definition image : Tensor := mkTensor [1; 1; 2; 2] [3; 9; 4; 1]%Z.

End MoreExamples.

(* ================================================================== *)
(** ** The recursion budget is sufficient *)

Section BudgetLemmas.

Lemma fmap_mono {A B} (f g : A -> option (Outcome B)) (l : list A) :
  (forall x o, In x l -> f x = Some o -> g x = Some o) ->
  forall o, fmap f l = Some o -> fmap g l = Some o.
Proof.
  induction l as [|x l IH]; intros Hfg o H; simpl in *; [exact H|].
  destruct (f x) as [[y|e]|] eqn:Hx; simpl in H; try discriminate.
  - rewrite (Hfg x (Ret y) (or_introl eq_refl) Hx). simpl.
    destruct (fmap f l) as [[ys|e]|] eqn:Hl; simpl in H; try discriminate.
    + rewrite (IH (fun x' o' Hin => Hfg x' o' (or_intror Hin)) _ eq_refl).
      exact H.
    + rewrite (IH (fun x' o' Hin => Hfg x' o' (or_intror Hin)) _ eq_refl).
      exact H.
  - rewrite (Hfg x (Raise e) (or_introl eq_refl) Hx). exact H.
Qed.

Lemma fmap_total {A B} (f : A -> option (Outcome B)) (l : list A) :
  (forall x, In x l -> exists o, f x = Some o) ->
  exists o, fmap f l = Some o.
Proof.
  induction l as [|x l IH]; intros Hf; simpl; [eauto|].
  destruct (Hf x (or_introl eq_refl)) as [[y|e] ->]; simpl; [|eauto].
  destruct (IH (fun x' Hin => Hf x' (or_intror Hin))) as [[ys|e] ->];
    simpl; eauto.
Qed.

(** [fmap] of a function that never exhausts its budget is [omap]. *)
Lemma fmap_omap {A B} (f : A -> option (Outcome B)) (g : A -> Outcome B)
  (l : list A) :
  (forall x, In x l -> f x = Some (g x)) ->
  fmap f l = Some (omap g l).
Proof.
  induction l as [|x l IH]; intros Hf; simpl; [reflexivity|].
  rewrite (Hf x (or_introl eq_refl)).
  destruct (g x) as [y|e]; simpl; [|reflexivity].
  rewrite (IH (fun x' Hin => Hf x' (or_intror Hin))).
  destruct (omap g l); reflexivity.
Qed.

Lemma omap_In {A B} (f : A -> Outcome B) (l : list A) (r : list B) :
  omap f l = Ret r ->
  forall y, In y r -> exists x, In x l /\ f x = Ret y.
Proof.
  revert r; induction l as [|x l IH]; intros r H y Hy; simpl in H.
  - inversion H; subst. destruct Hy.
  - destruct (f x) as [y0|e] eqn:Hx; simpl in H; try discriminate.
    destruct (omap f l) as [ys|e] eqn:Hl; simpl in H; try discriminate.
    inversion H; subst. destruct Hy as [<-|Hy].
    + exists x. split; [now left|assumption].
    + destruct (IH ys eq_refl y Hy) as (x' & Hin & Hx').
      exists x'. split; [now right|assumption].
Qed.

Lemma omap_length {A B} (f : A -> Outcome B) (l : list A) (r : list B) :
  omap f l = Ret r -> length r = length l.
Proof.
  revert r; induction l as [|x l IH]; intros r H; simpl in H.
  - inversion H; reflexivity.
  - destruct (f x) as [y0|e]; simpl in H; try discriminate.
    destruct (omap f l) as [ys|e]; simpl in H; try discriminate.
    inversion H; subst; simpl. f_equal. now apply IH.
Qed.

Lemma list_max_le_In (l : list nat) (n : nat) :
  In n l -> n <= list_max l.
Proof.
  induction l as [|m l IH]; simpl; intros H; [destruct H|].
  destruct H as [->|H]; [lia|]. specialize (IH H). lia.
Qed.

Lemma list_max_bound (l : list nat) (k : nat) :
  (forall n, In n l -> n <= k) -> list_max l <= k.
Proof.
  induction l as [|m l IH]; simpl; intros H; [lia|].
  assert (m <= k) by (apply H; now left).
  assert (list_max l <= k) by (apply IH; intros; apply H; now right).
  lia.
Qed.

Lemma need_pos (v : PyVal) : 1 <= need v.
Proof. destruct v; simpl; lia. Qed.

(** Iterating a value yields items that need no more budget than it. *)
Lemma py_iter_need (v : PyVal) (xs : list PyVal) :
  py_iter v = Ret xs -> forall x, In x xs -> need x <= need v.
Proof.
  destruct v; simpl; intros H x Hx.
  - destruct (shape t); [discriminate|].
    destruct (torch_unbind t); simpl in H; [|discriminate].
    inversion H; subst. apply in_map_iff in Hx as (t' & <- & _). simpl; lia.
  - inversion H; subst. apply in_map_iff in Hx as (kv & <- & _). simpl; lia.
  - inversion H; subst.
    assert (need x <= list_max (map need xs))
      by (apply list_max_le_In, in_map, Hx). lia.
  - inversion H; subst.
    assert (need x <= list_max (map need xs))
      by (apply list_max_le_In, in_map, Hx). lia.
  - inversion H; subst. apply in_map_iff in Hx as (c & <- & _). simpl; lia.
  - inversion H; subst.
    assert (need x <= list_max (map need xs))
      by (apply list_max_le_In, in_map, Hx). lia.
  - discriminate.
Qed.

Lemma zip_star_Forall (P : PyVal -> Prop) (n : nat) :
  P (VAtom ANone) ->
  forall cols, (forall c, In c cols -> forall x, In x c -> P x) ->
  forall t, In t (zip_star n cols) -> forall x, In x t -> P x.
Proof.
  intros Hd. induction n as [|n IH]; intros cols Hc t Ht x Hx; simpl in Ht.
  - destruct Ht.
  - destruct Ht as [<-|Ht].
    + apply in_map_iff in Hx as (c & <- & Hin).
      destruct c as [|y c]; simpl; [exact Hd|].
      apply (Hc _ Hin). now left.
    + apply (IH (map (@tl PyVal) cols)) with (t := t); try assumption.
      intros c Hin y Hy. apply in_map_iff in Hin as (c' & <- & Hin').
      destruct c' as [|z c']; simpl in Hy; [destruct Hy|].
      apply (Hc _ Hin'). now right.
Qed.

(** The tuples [zip] makes of the iterated columns need at most one unit
    more than the largest column. *)
Lemma zipped_need (vals : list PyVal) (cols : list (list PyVal)) (k : nat) :
  omap py_iter vals = Ret cols ->
  list_max (map need vals) <= k ->
  forall t, In t (py_zip cols) -> need (VSeq TTuple t) <= 1 + k.
Proof.
  intros Hcols Hk t Ht.
  assert (Hk1 : 1 <= k).
  { destruct vals as [|v vals].
    - simpl in Hcols. inversion Hcols; subst. destruct Ht.
    - pose proof (need_pos v). simpl in Hk. lia. }
  simpl. apply le_n_S, list_max_bound. intros n Hn.
  apply in_map_iff in Hn as (x & <- & Hx).
  revert x Hx. apply (@zip_star_Forall (fun x => need x <= k)
           (min_length cols)) with (cols := cols);
    [exact Hk1| |exact Ht].
  intros c Hc x Hx.
  destruct (omap_In _ _ Hcols c Hc) as (v & Hv & Hiter).
  pose proof (py_iter_need _ Hiter x Hx).
  assert (need v <= list_max (map need vals))
    by (apply list_max_le_In, in_map, Hv).
  lia.
Qed.

End BudgetLemmas.

Lemma need_mapping_values (cls : string) (items : list (string * PyVal)) :
  need (VMapping cls items) = 2 + list_max (map need (map snd items)).
Proof. simpl. now rewrite map_map. Qed.

(** With the budget [need batch] or more, [default_uncollate_fuel] returns. *)
Lemma default_uncollate_fuel_total (fuel : nat) :
  forall batch, need batch <= fuel ->
  exists o, default_uncollate_fuel fuel batch = Some o.
Proof.
  induction fuel as [|fuel IH]; intros batch Hn.
  - pose proof (need_pos batch). lia.
  - destruct batch as [t|cls items|cls fields vals|ty items|s|items|a];
      try (simpl; eauto; fail).
    + simpl. destruct (torch_unbind t); simpl; eauto.
    + rewrite need_mapping_values in Hn.
      cbn [default_uncollate_fuel].
      destruct (omap py_iter (map snd items)) as [cols|e] eqn:Hcols;
        cbn [fbind]; [|eauto].
      match goal with |- context [fmap ?f ?l] =>
        destruct (@fmap_total _ _ f l) as [[rows|e] ->] end;
        cbn [fbind]; eauto.
      intros t Ht.
      destruct (IH (VSeq TTuple t)) as [[r|e] ->]; cbn [fbind]; eauto.
      * pose proof (zipped_need _ Hcols (le_n _) t Ht). lia.
      * destruct (py_iter r); cbn [fbind]; eauto.
    + cbn [need] in Hn. cbn [default_uncollate_fuel].
      destruct (omap py_iter vals) as [cols|e] eqn:Hcols;
        cbn [fbind]; [|eauto].
      match goal with |- context [fmap ?f ?l] =>
        destruct (@fmap_total _ _ f l) as [[rows|e] ->] end;
        cbn [fbind]; eauto.
      intros t Ht.
      destruct (IH (VSeq TTuple t)) as [[r|e] ->]; cbn [fbind]; eauto.
      * pose proof (zipped_need _ Hcols (le_n _) t Ht). lia.
      * destruct (py_iter r); cbn [fbind]; eauto.
    + cbn [need] in Hn. cbn [default_uncollate_fuel].
      destruct (@fmap_total _ _ (default_uncollate_fuel fuel) items)
        as [[rows|e] ->]; cbn [fbind]; eauto.
      intros x Hx. apply IH.
      assert (need x <= list_max (map need items))
        by (apply list_max_le_In, in_map, Hx). lia.
Qed.

(** More budget does not change a result. *)
Lemma default_uncollate_fuel_S (fuel : nat) :
  forall batch o, default_uncollate_fuel fuel batch = Some o ->
  default_uncollate_fuel (S fuel) batch = Some o.
Proof.
  induction fuel as [|fuel IH]; intros batch o H; [discriminate|].
  remember (S fuel) as fuel1 eqn:Hfuel in |- *.
  destruct batch as [t|cls items|cls fields vals|ty items|s|items|a];
    try exact H.
  - cbn [default_uncollate_fuel] in H |- *.
    destruct (omap py_iter (map snd items)) as [cols|e]; cbn [fbind] in *;
      [|exact H].
    match type of H with context [fmap ?f ?l] =>
      destruct (fmap f l) as [[rows|e]|] eqn:Hrows end;
      cbn [fbind] in H; try discriminate;
      (erewrite fmap_mono; cycle 2; [exact Hrows|exact H|]);
      intros t o' _ Ht; cbv beta in Ht |- *;
      (destruct (default_uncollate_fuel fuel (VSeq TTuple t))
         as [o1|] eqn:Hr; [|cbn [fbind] in Ht; discriminate]);
      subst fuel1; rewrite (IH _ _ Hr); exact Ht.
  - cbn [default_uncollate_fuel] in H |- *.
    destruct (omap py_iter vals) as [cols|e]; cbn [fbind] in *;
      [|exact H].
    match type of H with context [fmap ?f ?l] =>
      destruct (fmap f l) as [[rows|e]|] eqn:Hrows end;
      cbn [fbind] in H; try discriminate;
      (erewrite fmap_mono; cycle 2; [exact Hrows|exact H|]);
      intros t o' _ Ht; cbv beta in Ht |- *;
      (destruct (default_uncollate_fuel fuel (VSeq TTuple t))
         as [o1|] eqn:Hr; [|cbn [fbind] in Ht; discriminate]);
      subst fuel1; rewrite (IH _ _ Hr); exact Ht.
  - cbn [default_uncollate_fuel] in H |- *.
    destruct (fmap (default_uncollate_fuel fuel) items) as [[rows|e]|] eqn:Hrows;
      cbn [fbind] in H; try discriminate;
      (erewrite fmap_mono; cycle 2; [exact Hrows|exact H|]);
      intros x o' _ Hx; subst fuel1; apply IH, Hx.
Qed.

Lemma default_uncollate_fuel_le (fuel fuel' : nat) (batch : PyVal)
  (o : Outcome PyVal) :
  default_uncollate_fuel fuel batch = Some o -> fuel <= fuel' ->
  default_uncollate_fuel fuel' batch = Some o.
Proof.
  intros H Hle. induction Hle; [exact H|].
  now apply default_uncollate_fuel_S.
Qed.

(** [default_uncollate] is the result under any sufficient budget: the
    function is total and the budget is not observable. *)
Lemma default_uncollate_fuel_enough (fuel : nat) (batch : PyVal) :
  need batch <= fuel ->
  default_uncollate_fuel fuel batch = Some (default_uncollate batch).
Proof.
  intros Hle. unfold default_uncollate.
  destruct (default_uncollate_fuel_total batch (le_n _)) as [o Ho].
  rewrite Ho. exact (default_uncollate_fuel_le _ Ho Hle).
Qed.

(* ================================================================== *)
(** ** The equations of [default_uncollate]

    One equation per clause of the source, free of the recursion budget. *)

Lemma default_uncollate_Tensor (t : Tensor) :
  default_uncollate (VTensor t) =
  (l <~ torch_unbind t ;; Ret (VSeq TList (map VTensor l))).
Proof.
  unfold default_uncollate. simpl. destruct (torch_unbind t); reflexivity.
Qed.

Lemma default_uncollate_Sequence (ty : SeqType) (items : list PyVal) :
  default_uncollate (VSeq ty items) =
  (l <~ omap default_uncollate items ;; Ret (VSeq TList l)).
Proof.
  unfold default_uncollate at 1. cbn [need].
  remember (list_max (map need items)) as m eqn:Hm.
  change (1 + m) with (S m). cbn [default_uncollate_fuel].
  rewrite (@fmap_omap _ _ (default_uncollate_fuel m) default_uncollate).
  - cbn [fbind]. destruct (omap default_uncollate items); reflexivity.
  - intros x Hx. apply default_uncollate_fuel_enough. subst m.
    apply list_max_le_In, in_map, Hx.
Qed.

Lemma default_uncollate_Mapping (cls : string) (items : list (string * PyVal)) :
  default_uncollate (VMapping cls items) =
  (cols <~ omap py_iter (map snd items) ;;
   rows <~ omap (fun t =>
             r <~ default_uncollate (VSeq TTuple t) ;;
             vs <~ py_iter r ;;
             mapping_new cls (dict_of (combine (map fst items) vs)))
           (py_zip cols) ;;
   Ret (VSeq TList rows)).
Proof.
  unfold default_uncollate at 1. rewrite need_mapping_values.
  remember (list_max (map need (map snd items))) as m eqn:Hm.
  change (2 + m) with (S (S m)).
  remember (S m) as m1 eqn:Hm1. cbn [default_uncollate_fuel].
  destruct (omap py_iter (map snd items)) as [cols|e] eqn:Hcols;
    cbn [fbind obind]; [|reflexivity].
  rewrite (@fmap_omap _ _ _ (fun t =>
             r <~ default_uncollate (VSeq TTuple t) ;;
             vs <~ py_iter r ;;
             mapping_new cls (dict_of (combine (map fst items) vs)))).
  - cbn [fbind]. match goal with |- context [omap ?f ?l] =>
      destruct (omap f l) end; reflexivity.
  - intros t Ht. cbv beta.
    rewrite default_uncollate_fuel_enough.
    + cbn [fbind]. destruct (default_uncollate (VSeq TTuple t)) as [r|e];
        cbn [obind]; [|reflexivity].
      destruct (py_iter r); reflexivity.
    + subst m1. apply (zipped_need _ Hcols); [subst m; apply le_n|exact Ht].
Qed.

Lemma default_uncollate_namedtuple (cls : string) (fields : list string)
  (vals : list PyVal) :
  default_uncollate (VNamedTuple cls fields vals) =
  (cols <~ omap py_iter vals ;;
   rows <~ omap (fun sample =>
             r <~ default_uncollate (VSeq TTuple sample) ;;
             args <~ py_iter r ;;
             namedtuple_new cls fields args)
           (py_zip cols) ;;
   Ret (VSeq TList rows)).
Proof.
  unfold default_uncollate at 1. cbn [need].
  remember (list_max (map need vals)) as m eqn:Hm.
  change (2 + m) with (S (S m)).
  remember (S m) as m1 eqn:Hm1. cbn [default_uncollate_fuel].
  destruct (omap py_iter vals) as [cols|e] eqn:Hcols;
    cbn [fbind obind]; [|reflexivity].
  rewrite (@fmap_omap _ _ _ (fun sample =>
             r <~ default_uncollate (VSeq TTuple sample) ;;
             args <~ py_iter r ;;
             namedtuple_new cls fields args)).
  - cbn [fbind]. match goal with |- context [omap ?f ?l] =>
      destruct (omap f l) end; reflexivity.
  - intros t Ht. cbv beta.
    rewrite default_uncollate_fuel_enough.
    + cbn [fbind]. destruct (default_uncollate (VSeq TTuple t)) as [r|e];
        cbn [obind]; [|reflexivity].
      destruct (py_iter r); reflexivity.
    + subst m1. apply (zipped_need _ Hcols); [subst m; apply le_n|exact Ht].
Qed.

(** When a mapping class accepts the dict, the result is the mapping of that
    class with the dict's items. *)
Lemma mapping_new_returns (cls : string) (d : list (string * PyVal))
  (y : PyVal) :
  mapping_new cls d = Ret y -> y = VMapping cls d.
Proof.
  unfold mapping_new. destruct (String.eqb cls "defaultdict"); [discriminate|].
  intros H; inversion H; reflexivity.
Qed.

Lemma default_uncollate_fallthrough (batch : PyVal) :
  match batch with VStr _ | VSet _ | VAtom _ => True | _ => False end ->
  default_uncollate batch = Ret batch.
Proof. destruct batch; intros H; try destruct H; reflexivity. Qed.

(* ================================================================== *)
(** ** Tensors: unbinding, slices and stacking *)

Lemma chunks_length (n size : nat) (l : list Z) :
  length (chunks n size l) = n.
Proof.
  revert l; induction n as [|n IH]; intros l; simpl; [reflexivity|].
  now rewrite IH.
Qed.

(** The [i]-th block is the block found by index arithmetic. *)
Lemma chunks_nth (n size : nat) :
  forall (l : list Z) (i : nat), i < n ->
  nth_error (chunks n size l) i = Some (firstn size (skipn (i * size) l)).
Proof.
  induction n as [|n IH]; intros l i Hi; [lia|].
  destruct i as [|i]; simpl.
  - reflexivity.
  - rewrite IH by lia. rewrite skipn_skipn.
    now replace (i * size + size) with (size + i * size) by lia.
Qed.

(** Blocks of a concatenation of equally long lists are those lists. *)
Lemma chunks_flat_map (size : nat) (ts : list Tensor) :
  (forall t, In t ts -> length (data t) = size) ->
  chunks (length ts) size (flat_map data ts) = map data ts.
Proof.
  induction ts as [|t ts IH]; intros H; simpl; [reflexivity|].
  assert (Ht : length (data t) = size) by (apply H; now left).
  rewrite firstn_app, skipn_app, Ht, Nat.sub_diag. simpl.
  rewrite firstn_all2, skipn_all2 by lia. simpl.
  rewrite app_nil_r. f_equal. apply IH. intros; apply H; now right.
Qed.

Lemma torch_unbind_select (t : Tensor) (n : nat) (rest : list nat) :
  shape t = n :: rest ->
  exists l, torch_unbind t = Ret l /\ length l = n /\
            forall i, i < n -> nth_error l i = Some (tensor_select t i).
Proof.
  intros Hs. unfold torch_unbind. rewrite Hs. eexists. split; [reflexivity|].
  split.
  - now rewrite length_map, chunks_length.
  - intros i Hi. rewrite nth_error_map, chunks_nth by exact Hi.
    unfold tensor_select. rewrite Hs. reflexivity.
Qed.

(* ================================================================== *)
(** ** Properties of [default_uncollate] *)

(** C1: for every non-empty list of tensors of one shape, stacking them along
    a new first dimension and passing the batch to [default_uncollate] gives
    back the list of the original tensors, in order. *)
Theorem uncollate_stack_left_inverse (ts : list Tensor) (s : list nat) :
  ts <> [] ->
  (forall t, In t ts -> tensor_wf t /\ shape t = s) ->
  exists batch,
    torch_stack ts = Ret batch /\
    default_uncollate (VTensor batch) = Ret (VSeq TList (map VTensor ts)).
Proof.
  intros Hne Hts. destruct ts as [|t0 ts']; [congruence|].
  remember (t0 :: ts') as ts eqn:Hts0.
  assert (Hin0 : In t0 ts) by (subst ts; now left).
  assert (Hshape : forallb (fun t => shape_eqb (shape t) (shape t0)) ts = true).
  { apply forallb_forall. intros t Ht. unfold shape_eqb.
    destruct (Hts t Ht) as [_ ->]. destruct (Hts t0 Hin0) as [_ ->].
    destruct (list_eq_dec Nat.eq_dec s s); congruence. }
  exists (mkTensor (length ts :: shape t0) (flat_map data ts)). split.
  - subst ts. unfold torch_stack. now rewrite Hshape.
  - rewrite default_uncollate_Tensor. unfold torch_unbind. cbn [shape data obind].
    do 3 f_equal.
    destruct (Hts t0 Hin0) as [_ Hs0].
    rewrite (@chunks_flat_map (numel (shape t0)) ts).
    + rewrite map_map. rewrite <- (map_id ts) at 2.
      apply map_ext_in. intros t Ht. destruct (Hts t Ht) as [_ Hs].
      destruct t as [sh d]; simpl in *. congruence.
    + intros t Ht. destruct (Hts t Ht) as [Hwf Hs].
      unfold tensor_wf in Hwf. congruence.
Qed.

(** C3: a tensor batch whose first dimension is [n] is uncollated into a list
    of exactly [n] tensors, the [i]-th being the [i]-th slice of the batch
    along dimension 0. *)
Theorem uncollate_tensor_slices (t : Tensor) (n : nat) (rest : list nat) :
  shape t = n :: rest ->
  exists samples,
    default_uncollate (VTensor t) = Ret (VSeq TList samples) /\
    length samples = n /\
    forall i, i < n -> nth_error samples i = Some (VTensor (tensor_select t i)).
Proof.
  intros Hs. destruct (torch_unbind_select t Hs) as (l & Hu & Hlen & Hnth).
  exists (map VTensor l). rewrite default_uncollate_Tensor, Hu. simpl.
  split; [reflexivity|]. split; [now rewrite length_map|].
  intros i Hi. now rewrite nth_error_map, Hnth.
Qed.

(** C10: a batch that is a string, or that is neither a tensor, a Mapping, a
    namedtuple nor a non-string Sequence, is returned unchanged. *)
Theorem uncollate_fallthrough_unchanged (batch : PyVal) :
  isinstance_str batch = true \/
  (isinstance_Tensor batch = false /\
   isinstance_Mapping batch = false /\
   is_namedtuple batch = false /\
   (isinstance_Sequence batch && negb (isinstance_str batch)) = false) ->
  default_uncollate batch = Ret batch.
Proof.
  intros [Hstr | (Ht & Hm & Hn & Hs)];
    destruct batch; simpl in *; try discriminate; reflexivity.
Qed.

Lemma uncollate_stack_left_inverse_witness :
  let ts := [mkTensor [2] [1; 2]%Z; mkTensor [2] [3; 4]%Z] in
  exists batch,
    torch_stack ts = Ret batch /\
    default_uncollate (VTensor batch) = Ret (VSeq TList (map VTensor ts)).
Proof.
  apply (@uncollate_stack_left_inverse
           [mkTensor [2] [1; 2]%Z; mkTensor [2] [3; 4]%Z] [2]).
  - discriminate.
  - intros t [<-|[<-|[]]]; split; reflexivity.
Defined.

Lemma uncollate_tensor_slices_witness :
  let t := mkTensor [3; 2] [1; 2; 3; 4; 5; 6]%Z in
  exists samples,
    default_uncollate (VTensor t) = Ret (VSeq TList samples) /\
    length samples = 3 /\
    forall i, i < 3 -> nth_error samples i = Some (VTensor (tensor_select t i)).
Proof.
  apply (@uncollate_tensor_slices (mkTensor [3; 2] [1; 2; 3; 4; 5; 6]%Z) 3 [2]).
  reflexivity.
Defined.

Lemma uncollate_fallthrough_unchanged_witness :
  default_uncollate (VStr "cat") = Ret (VStr "cat").
Proof.
  apply (@uncollate_fallthrough_unchanged (VStr "cat")).
  left. reflexivity.
Defined.

(** The samples built by the Mapping and namedtuple clauses. *)
Lemma omap_Forall {A B} (f : A -> Outcome B) (P : B -> Prop) (l : list A)
  (r : list B) :
  (forall x y, In x l -> f x = Ret y -> P y) ->
  omap f l = Ret r -> Forall P r.
Proof.
  intros Hf H. apply Forall_forall. intros y Hy.
  destruct (omap_In _ _ H y Hy) as (x & Hx & Hfx). eauto.
Qed.

(** C4 (amended): the samples uncollated from a Mapping batch are mappings of
    the batch's class, the samples uncollated from a namedtuple batch are
    namedtuples of the batch's class, and every other non-string Sequence
    batch is uncollated into a [list] with one entry per item, whatever the
    sequence class of the batch. *)
Theorem uncollate_container_types (batch r : PyVal) :
  default_uncollate batch = Ret r ->
  match batch with
  | VMapping _ _ | VNamedTuple _ _ _ =>
      exists samples,
        r = VSeq TList samples /\
        Forall (fun s => py_type s = py_type batch) samples
  | VSeq _ items =>
      exists samples, r = VSeq TList samples /\ length samples = length items
  | VTensor _ | VStr _ | VSet _ | VAtom _ => True
  end.
Proof.
  intros H. destruct batch as [t|cls items|cls fields vals|ty items|s|items|a];
    try exact I.
  - rewrite default_uncollate_Mapping in H.
    destruct (omap py_iter (map snd items)) as [cols|e]; [|discriminate].
    cbn [obind] in H.
    match type of H with context [omap ?f ?l] =>
      destruct (omap f l) as [rows|e] eqn:Hrows end; [|discriminate].
    inversion H; subst. exists rows. split; [reflexivity|].
    eapply omap_Forall; [|exact Hrows]. cbv beta. intros x y _ Hy.
    destruct (default_uncollate (VSeq TTuple x)) as [r0|e]; [|discriminate].
    cbn [obind] in Hy. destruct (py_iter r0); [|discriminate].
    cbn [obind] in Hy. now rewrite (mapping_new_returns _ _ Hy).
  - rewrite default_uncollate_namedtuple in H.
    destruct (omap py_iter vals) as [cols|e]; [|discriminate].
    cbn [obind] in H.
    match type of H with context [omap ?f ?l] =>
      destruct (omap f l) as [rows|e] eqn:Hrows end; [|discriminate].
    inversion H; subst. exists rows. split; [reflexivity|].
    eapply omap_Forall; [|exact Hrows]. cbv beta. intros x y _ Hy.
    destruct (default_uncollate (VSeq TTuple x)) as [r0|e]; [|discriminate].
    cbn [obind] in Hy. destruct (py_iter r0) as [args|e]; [|discriminate].
    cbn [obind] in Hy. unfold namedtuple_new in Hy.
    destruct (Nat.eqb (length args) (length fields)); [|discriminate].
    inversion Hy; reflexivity.
  - rewrite default_uncollate_Sequence in H.
    destruct (omap default_uncollate items) as [l|e] eqn:Hl; [|discriminate].
    inversion H; subst. exists l. split; [reflexivity|].
    exact (omap_length _ _ Hl).
Qed.

Lemma uncollate_container_types_witness :
  let batch :=
    VMapping "OrderedDict" [("x", VTensor (mkTensor [1; 1] [7%Z]))] in
  let r :=
    VSeq TList
      [VMapping "OrderedDict" [("x", VSeq TList [VTensor (mkTensor [] [7%Z])])]] in
  default_uncollate batch = Ret r /\
  exists samples,
    r = VSeq TList samples /\
    Forall (fun s => py_type s = py_type batch) samples.
Proof.
  split; [reflexivity|].
  exact (@uncollate_container_types
           (VMapping "OrderedDict" [("x", VTensor (mkTensor [1; 1] [7%Z]))])
           _ eq_refl).
Defined.

(** C4, as stated, fails on a tuple batch: the returned container is a
    [list], not a [tuple]. *)
Lemma uncollate_tuple_returns_list :
  let batch := VSeq TTuple [VAtom (AInt 1); VAtom (AInt 2)] in
  exists r, default_uncollate batch = Ret r /\ py_type r <> py_type batch.
Proof.
  eexists. split; [reflexivity|]. discriminate.
Qed.

(* ------------------------------------------------------------------ *)
(** *** Mapping batches of tensors *)

Lemma min_length_uniform (n : nat) (c : list PyVal) (cols : list (list PyVal)) :
  (forall c', In c' (c :: cols) -> length c' = n) ->
  min_length (c :: cols) = n.
Proof.
  intros H. simpl.
  assert (Hc : length c = n) by (apply H; now left).
  induction cols as [|c1 cols IH]; simpl; [exact Hc|].
  rewrite IH.
  - rewrite (H c1) by (right; now left). apply Nat.min_id.
  - intros c' [<-|Hin]; apply H; [now left|right; now right].
Qed.

(** Iterating 1-D tensors of length [n] gives columns of [n] 0-d tensors. *)
Lemma iter_vectors (n : nat) (vals : list PyVal) :
  (forall v, In v vals -> exists t, v = VTensor t /\ shape t = [n]) ->
  exists cols,
    omap py_iter vals = Ret cols /\
    length cols = length vals /\
    forall c, In c cols ->
      length c = n /\
      forall x, In x c -> exists d, x = VTensor (mkTensor [] d).
Proof.
  induction vals as [|v vals IH]; intros H.
  - exists []. repeat split; try reflexivity; destruct H0.
  - destruct (H v (or_introl eq_refl)) as (t & -> & Hs).
    destruct IH as (cols & Hcols & Hlen & Hc);
      [intros; apply H; now right|].
    exists (map VTensor (map (mkTensor []) (chunks n (numel []) (data t)))
            :: cols).
    cbn [omap py_iter]. unfold torch_unbind. rewrite Hs, Hcols. cbn [obind].
    split; [reflexivity|]. split; [simpl; now rewrite Hlen|].
    intros c [<-|Hin]; [|now apply Hc]. split.
    + now rewrite !length_map, chunks_length.
    + intros x Hx. apply in_map_iff in Hx as (t' & <- & Ht').
      apply in_map_iff in Ht' as (d & <- & _). now exists d.
Qed.

(** C2: on a Mapping batch with at least one key whose values are all 1-D
    tensors of one length [n > 0], [default_uncollate] does not return the
    per-sample mappings: uncollating a 0-d slice raises. *)
Theorem uncollate_mapping_of_vectors_raises (cls : string)
  (items : list (string * PyVal)) (n : nat) :
  items <> [] ->
  0 < n ->
  (forall v, In v (map snd items) -> exists t, v = VTensor t /\ shape t = [n]) ->
  default_uncollate (VMapping cls items) = Raise (IndexError unbind_0d_msg).
Proof.
  intros Hne Hn Hvals. rewrite default_uncollate_Mapping.
  destruct (@iter_vectors n (map snd items) Hvals) as (cols & -> & Hlen & Hc).
  cbn [obind].
  destruct cols as [|c cols].
  { destruct items; [congruence|discriminate]. }
  unfold py_zip.
  rewrite (@min_length_uniform n c cols) by (intros; now apply Hc).
  destruct n as [|n]; [lia|]. cbn [zip_star].
  destruct (Hc c (or_introl eq_refl)) as [Hlc Hxc].
  destruct c as [|x c]; [discriminate|].
  destruct (Hxc x (or_introl eq_refl)) as [d ->].
  cbn [map hd omap]. rewrite default_uncollate_Sequence.
  cbn [omap]. rewrite default_uncollate_Tensor. reflexivity.
Qed.

Lemma uncollate_mapping_of_vectors_raises_witness :
  default_uncollate
    (VMapping "dict" [("x", VTensor (mkTensor [2] [1; 2]%Z));
                      ("y", VTensor (mkTensor [2] [3; 4]%Z))])
  = Raise (IndexError unbind_0d_msg).
Proof.
  apply (@uncollate_mapping_of_vectors_raises "dict"
           [("x", VTensor (mkTensor [2] [1; 2]%Z));
            ("y", VTensor (mkTensor [2] [3; 4]%Z))] 2).
  - discriminate.
  - lia.
  - intros v [<-|[<-|[]]]; eexists; split; reflexivity.
Defined.

(** On tensors with further dimensions the slice of each key is itself
    uncollated, into the list of its own slices. *)
Example uncollate_mapping_of_matrices :
  default_uncollate
    (VMapping "dict" [("x", VTensor (mkTensor [2; 2] [1; 2; 3; 4]%Z))])
  = Ret (VSeq TList
      [VMapping "dict"
         [("x", VSeq TList [VTensor (mkTensor [] [1%Z]);
                            VTensor (mkTensor [] [2%Z])])];
       VMapping "dict"
         [("x", VSeq TList [VTensor (mkTensor [] [3%Z]);
                            VTensor (mkTensor [] [4%Z])])]]).
Proof. reflexivity. Qed.

(* ================================================================== *)
(** ** The [forward] methods *)

Section MonadLemmas.

Variable W : Type.

(** A comprehension over a callable whose calls all return: the results in
    order, one call per item appended to the trace. *)
Lemma mapM_each_called (a : Attr) (f : Callable W) (w w' : W)
  (xs ys : list PyVal) :
  each_called f w xs ys w' ->
  forall tr,
    mapM (call a f) xs (w, tr) = (Ret ys, (w', tr ++ map (Call a) xs)).
Proof.
  induction 1 as [w|w x y w1 xs ys w2 Hx Hxs IH]; intros tr.
  - simpl. now rewrite app_nil_r.
  - cbn [mapM]. unfold bind at 1. unfold call at 1. cbn [fst snd].
    rewrite Hx. unfold bind at 1. rewrite IH. unfold ret.
    now rewrite <- app_assoc.
Qed.

Lemma bind_call_ret {B} (a : Attr) (f : Callable W) (x y : PyVal)
  (k : PyVal -> M W B) (w w1 : W) (tr : list Event)
  (H : f x w = (Ret y, w1)) :
  bind (call a f x) k (w, tr) = k y (w1, tr ++ [Call a x]).
Proof. unfold bind, call. cbn [fst snd]. now rewrite H. Qed.

Lemma call_eq (a : Attr) (f : Callable W) (x : PyVal) (w : W)
  (tr : list Event) :
  call a f x (w, tr) = (fst (f x w), (snd (f x w), tr ++ [Call a x])).
Proof. unfold call. cbn [fst snd]. now destruct (f x w). Qed.

Lemma bind_ret_r {A} (m : M W A) (st : W * list Event) :
  bind m (fun x => ret x) st = m st.
Proof. unfold bind, ret. now destruct (m st) as [[a|e] st']. Qed.

End MonadLemmas.

(** Every [Sequence] can be iterated. *)
Lemma sequence_iterates (v : PyVal) :
  isinstance_Sequence v = true -> exists items, py_iter v = Ret items.
Proof. destruct v; simpl; intros H; try discriminate; eauto. Qed.

(* ------------------------------------------------------------------ *)
(** *** [_Sequential.forward] *)

Section SequentialForward.

Variable W : Type.
Variable _contains_any_tensor : PyVal -> bool.

Import _Sequential.

(** The run of [forward] when the tensor check is off or passes. *)
Lemma forward_past_check (self : _Sequential.t W)
  (sample x y : PyVal) (w w1 w2 : W) (tr : list Event)
  (Hpre : pre_tensor_transform self sample w = (Ret x, w1))
  (Hto : to_tensor_transform self x w1 = (Ret y, w2))
  (Hguard : assert_contains_tensor self = false \/
            _contains_any_tensor y = true) :
  forward _contains_any_tensor self sample (w, tr) =
    (fst (post_tensor_transform self y w2),
     (snd (post_tensor_transform self y w2),
      tr ++ [Call A_pre_tensor_transform sample;
             Call A_to_tensor_transform x]
         ++ (if assert_contains_tensor self
             then [Call A_contains_any_tensor y] else [])
         ++ [Call A_post_tensor_transform y])).
Proof.
  unfold forward.
  rewrite bind_call_ret with (1 := Hpre).
  rewrite bind_call_ret with (1 := Hto).
  destruct (assert_contains_tensor self).
  - destruct Hguard as [Hg|Hg]; [discriminate|].
    unfold bind at 1. unfold bind at 1. unfold contains_check.
    rewrite Hg. cbn [negb fst snd]. unfold ret at 1.
    rewrite bind_ret_r, call_eq. repeat rewrite <- app_assoc. reflexivity.
  - unfold bind at 1. unfold ret at 1.
    rewrite bind_ret_r, call_eq. repeat rewrite <- app_assoc. reflexivity.
Qed.

(** C5 (amended): when [assert_contains_tensor] is false, or the output of
    [to_tensor_transform] contains a tensor, [forward] returns
    [post_tensor_transform(to_tensor_transform(pre_tensor_transform(sample)))],
    each of the three transforms being called exactly once, in that order. *)
Theorem sequential_forward_composes (self : _Sequential.t W)
  (sample x y : PyVal) (w w1 w2 : W) (tr : list Event) :
  pre_tensor_transform self sample w = (Ret x, w1) ->
  to_tensor_transform self x w1 = (Ret y, w2) ->
  assert_contains_tensor self = false \/ _contains_any_tensor y = true ->
  let result := post_tensor_transform self y w2 in
  forward _contains_any_tensor self sample (w, tr) =
    (fst result,
     (snd result,
      tr ++ [Call A_pre_tensor_transform sample;
             Call A_to_tensor_transform x]
         ++ (if assert_contains_tensor self
             then [Call A_contains_any_tensor y] else [])
         ++ [Call A_post_tensor_transform y])) /\
  result =
    then_call (then_call (pre_tensor_transform self)
                         (to_tensor_transform self))
              (post_tensor_transform self) sample w.
Proof.
  intros Hpre Hto Hguard result. subst result. split.
  - exact (@forward_past_check self sample x y w w1 w2 tr Hpre Hto Hguard).
  - unfold then_call. now rewrite Hpre, Hto.
Qed.

(** C8: with transforms that return, [forward] raises a
    [MisconfigurationException] exactly when [assert_contains_tensor] is
    true and the output of [to_tensor_transform] contains no tensor; it
    then stops before [post_tensor_transform]; and with
    [assert_contains_tensor] false the check is not made. *)
Theorem sequential_forward_raises_iff (self : _Sequential.t W)
  (sample x y : PyVal) (w w1 w2 : W) (tr : list Event) :
  pre_tensor_transform self sample w = (Ret x, w1) ->
  to_tensor_transform self x w1 = (Ret y, w2) ->
  (forall msg w3,
     post_tensor_transform self y w2
     <> (Raise (MisconfigurationException msg), w3)) ->
  ((exists msg st,
      forward _contains_any_tensor self sample (w, tr)
      = (Raise (MisconfigurationException msg), st)) <->
   (assert_contains_tensor self = true /\ _contains_any_tensor y = false)) /\
  (assert_contains_tensor self = true -> _contains_any_tensor y = false ->
   forward _contains_any_tensor self sample (w, tr) =
     (Raise (MisconfigurationException overriden_msg),
      (w2, tr ++ [Call A_pre_tensor_transform sample;
                  Call A_to_tensor_transform x;
                  Call A_contains_any_tensor y]))) /\
  (assert_contains_tensor self = false ->
   forward _contains_any_tensor self sample (w, tr) =
     (fst (post_tensor_transform self y w2),
      (snd (post_tensor_transform self y w2),
       tr ++ [Call A_pre_tensor_transform sample;
              Call A_to_tensor_transform x;
              Call A_post_tensor_transform y]))).
Proof.
  intros Hpre Hto Hpost.
  assert (Hraise :
    assert_contains_tensor self = true -> _contains_any_tensor y = false ->
    forward _contains_any_tensor self sample (w, tr) =
      (Raise (MisconfigurationException overriden_msg),
       (w2, tr ++ [Call A_pre_tensor_transform sample;
                   Call A_to_tensor_transform x;
                   Call A_contains_any_tensor y]))).
  { intros Ha Hc. unfold forward.
    rewrite bind_call_ret with (1 := Hpre).
    rewrite bind_call_ret with (1 := Hto).
    rewrite Ha. unfold bind at 1. unfold bind at 1. unfold contains_check.
    rewrite Hc. cbn [negb fst snd]. unfold raise.
    repeat rewrite <- app_assoc. reflexivity. }
  assert (Hpass :
    assert_contains_tensor self = false \/ _contains_any_tensor y = true ->
    forall msg st,
      forward _contains_any_tensor self sample (w, tr)
      <> (Raise (MisconfigurationException msg), st)).
  { intros Hg msg st Hf.
    rewrite (@forward_past_check self sample x y w w1 w2 tr Hpre Hto Hg) in Hf.
    destruct (post_tensor_transform self y w2) as [r w3] eqn:Hp.
    cbn [fst snd] in Hf. inversion Hf; subst.
    exact (Hpost msg w3 eq_refl). }
  split; [split|split].
  - intros (msg & st & Hf).
    destruct (assert_contains_tensor self) eqn:Ha;
      destruct (_contains_any_tensor y) eqn:Hc; auto;
      exfalso; eapply Hpass; eauto.
  - intros [Ha Hc]. eauto.
  - exact Hraise.
  - intros Ha.
    rewrite (@forward_past_check self sample x y w w1 w2 tr Hpre Hto (or_introl Ha)), Ha.
    reflexivity.
Qed.

End SequentialForward.

(* ------------------------------------------------------------------ *)
(** *** [_PreProcessor.forward] *)

Section PreProcessorForward.

Variable W : Type.
Variable class_new : PyType -> Callable W.

Import _PreProcessor.

(** C6: with [apply_per_sample_transform] true, [forward] calls
    [per_sample_transform] on each sample in turn, then [collate_fn] on the
    list of the transformed samples, then [per_batch_transform] on the
    collated batch, and returns its result.  (Stated for any iterable
    [samples]; by [sequence_iterates] every sequence is one.) *)
Theorem preprocessor_forward_chain (self : _PreProcessor.t W)
  (samples : PyVal) (items ys : list PyVal) (b : PyVal)
  (w w1 w2 : W) (tr : list Event) :
  apply_per_sample_transform self = true ->
  py_iter samples = Ret items ->
  each_called (per_sample_transform self) w items ys w1 ->
  collate_fn self (VSeq TList ys) w1 = (Ret b, w2) ->
  forward class_new self samples (w, tr) =
    (fst (per_batch_transform self b w2),
     (snd (per_batch_transform self b w2),
      tr ++ map (Call A_per_sample_transform) items
         ++ [Call A_collate_fn (VSeq TList ys);
             Call A_per_batch_transform b])).
Proof.
  intros Happly Hiter Hmap Hcollate. unfold forward. rewrite Happly.
  unfold bind at 1. unfold bind at 1. unfold lift at 1. rewrite Hiter.
  unfold bind at 1.
  rewrite (@mapM_each_called W A_per_sample_transform _ _ _ _ _ Hmap tr).
  unfold bind at 1. cbn [py_type type_call py_iter].
  unfold bind at 1. unfold lift, ret at 1. unfold ret at 1.
  rewrite call_eq, Hcollate. cbn [fst snd].
  rewrite bind_ret_r, call_eq. repeat rewrite <- app_assoc. reflexivity.
Qed.

(** C9: with [apply_per_sample_transform] false, [forward] calls neither
    [per_sample_transform] nor [collate_fn]: it returns
    [per_batch_transform] of the input as it is. *)
Theorem preprocessor_forward_skips (self : _PreProcessor.t W)
  (samples : PyVal) (w : W) (tr : list Event) :
  apply_per_sample_transform self = false ->
  forward class_new self samples (w, tr) =
    (fst (per_batch_transform self samples w),
     (snd (per_batch_transform self samples w),
      tr ++ [Call A_per_batch_transform samples])).
Proof.
  intros Happly. unfold forward. rewrite Happly.
  unfold bind at 1. unfold ret at 1. now rewrite bind_ret_r, call_eq.
Qed.

End PreProcessorForward.

(* ------------------------------------------------------------------ *)
(** *** [_PostProcessor.forward] *)

Section PostProcessorForward.

Variable W : Type.
Variable class_new : PyType -> Callable W.

Import _PostProcessor.

(** C7 (amended): with no [save_fn] and a [list] or [tuple] returned by
    [uncollate_fn], [forward] calls [per_batch_transform] on the batch,
    [uncollate_fn] on the result, then [per_sample_transform] on each
    uncollated sample in turn, and returns the transformed samples in a
    container of the type that [uncollate_fn] returned. *)
Theorem postprocessor_forward_chain (self : _PostProcessor.t W)
  (batch b : PyVal) (ty : SeqType) (items ys : list PyVal)
  (w w1 w2 w3 : W) (tr : list Event) :
  save_fn self = None ->
  ty = TList \/ ty = TTuple ->
  per_batch_transform self batch w = (Ret b, w1) ->
  uncollate_fn self b w1 = (Ret (VSeq ty items), w2) ->
  each_called (per_sample_transform self) w2 items ys w3 ->
  forward class_new self batch (w, tr) =
    (Ret (VSeq ty ys),
     (w3,
      tr ++ [Call A_per_batch_transform batch; Call A_uncollate_fn b]
         ++ map (Call A_per_sample_transform) items)).
Proof.
  intros Hsave Hty Hbatch Hunc Hmap. unfold forward.
  rewrite bind_call_ret with (1 := Hbatch).
  rewrite bind_call_ret with (1 := Hunc).
  unfold bind at 1. unfold lift at 1. cbn [py_iter].
  unfold bind at 1.
  rewrite (@mapM_each_called W A_per_sample_transform _ _ _ _ _ Hmap).
  rewrite Hsave. cbn [py_type].
  destruct Hty as [-> | ->]; cbn [type_call py_iter];
    unfold bind, lift, ret; repeat rewrite <- app_assoc; reflexivity.
Qed.

End PostProcessorForward.

(* ------------------------------------------------------------------ *)
(** *** The [forward] methods on the example instances *)

Section ForwardExamples.

Import Examples.

(** C5, as stated, fails when the tensor check is on and the sample holds
    no tensor: [forward] raises where the composition of the three
    transforms returns. *)
Lemma sequential_forward_check_counterexample :
  _Sequential.forward any_tensor (sequential true) one (0, [])
    = (Raise (MisconfigurationException overriden_msg),
       (2, [Call A_pre_tensor_transform one;
            Call A_to_tensor_transform one;
            Call A_contains_any_tensor one])) /\
  then_call (then_call identity identity) identity one 0 = (Ret one, 3) /\
  fst (_Sequential.forward any_tensor (sequential true) one (0, []))
    <> fst (then_call (then_call identity identity) identity one 0).
Proof. repeat split. discriminate. Qed.

Lemma sequential_forward_composes_witness :
  _Sequential.forward any_tensor (sequential true) t1 (0, [])
    = (Ret t1,
       (3, [Call A_pre_tensor_transform t1;
            Call A_to_tensor_transform t1;
            Call A_contains_any_tensor t1;
            Call A_post_tensor_transform t1])) /\
  (Ret t1, 3) = then_call (then_call identity identity) identity t1 0.
Proof.
  exact (@sequential_forward_composes nat any_tensor (sequential true)
           t1 t1 t1 0 1 2 [] eq_refl eq_refl (or_intror eq_refl)).
Defined.

Lemma sequential_forward_raises_iff_witness :
  ((exists msg st,
      _Sequential.forward any_tensor (sequential true) one (0, [])
      = (Raise (MisconfigurationException msg), st)) <->
   (_Sequential.assert_contains_tensor (sequential true) = true /\
    any_tensor one = false)) /\
  (_Sequential.assert_contains_tensor (sequential true) = true ->
   any_tensor one = false ->
   _Sequential.forward any_tensor (sequential true) one (0, []) =
     (Raise (MisconfigurationException overriden_msg),
      (2, [Call A_pre_tensor_transform one;
           Call A_to_tensor_transform one;
           Call A_contains_any_tensor one]))) /\
  (_Sequential.assert_contains_tensor (sequential true) = false ->
   _Sequential.forward any_tensor (sequential true) one (0, []) =
     (Ret one,
      (3, [Call A_pre_tensor_transform one;
           Call A_to_tensor_transform one;
           Call A_post_tensor_transform one]))).
Proof.
  apply (@sequential_forward_raises_iff nat any_tensor (sequential true)
           one one one 0 1 2 [] eq_refl eq_refl).
  intros msg w3. discriminate.
Defined.

Lemma preprocessor_forward_chain_witness :
  _PreProcessor.forward no_class_new (preprocessor true)
    (VSeq TTuple [one; two]) (0, [])
  = (Ret t12,
     (4, [Call A_per_sample_transform one;
          Call A_per_sample_transform two;
          Call A_collate_fn (VSeq TList [t1; t2]);
          Call A_per_batch_transform t12])).
Proof.
  apply (@preprocessor_forward_chain nat no_class_new (preprocessor true)
           (VSeq TTuple [one; two]) [one; two] [t1; t2] t12 0 2 3 []).
  - reflexivity.
  - reflexivity.
  - apply each_called_cons with (w1 := 1); [reflexivity|].
    apply each_called_cons with (w1 := 2); [reflexivity|].
    apply each_called_nil.
  - reflexivity.
Defined.

Lemma preprocessor_forward_skips_witness :
  _PreProcessor.forward no_class_new (preprocessor false)
    (VSeq TTuple [one; two]) (0, [])
  = (Ret (VSeq TTuple [one; two]),
     (1, [Call A_per_batch_transform (VSeq TTuple [one; two])])).
Proof.
  exact (@preprocessor_forward_skips nat no_class_new (preprocessor false)
           (VSeq TTuple [one; two]) 0 [] eq_refl).
Defined.

Lemma postprocessor_forward_chain_witness :
  _PostProcessor.forward no_class_new postprocessor t12 (0, [])
  = (Ret (VSeq TList [t1; t2]),
     (4, [Call A_per_batch_transform t12;
          Call A_uncollate_fn t12;
          Call A_per_sample_transform t1;
          Call A_per_sample_transform t2])).
Proof.
  apply (@postprocessor_forward_chain nat no_class_new postprocessor
           t12 t12 TList [t1; t2] [t1; t2] 0 1 2 4 []).
  - reflexivity.
  - left; reflexivity.
  - reflexivity.
  - reflexivity.
  - apply each_called_cons with (w1 := 3); [reflexivity|].
    apply each_called_cons with (w1 := 4); [reflexivity|].
    apply each_called_nil.
Defined.

End ForwardExamples.

(* ================================================================== *)
(** ** Further properties of [default_uncollate] *)

Lemma omap_ret {A B} (g : A -> B) (f : A -> Outcome B) (l : list A) :
  (forall x, In x l -> f x = Ret (g x)) ->
  omap f l = Ret (map g l).
Proof.
  induction l as [|x l IH]; intros H; simpl; [reflexivity|].
  rewrite (H x (or_introl eq_refl)). simpl.
  rewrite IH by (intros; apply H; now right). reflexivity.
Qed.

(** A comprehension raises as soon as one of its items does. *)
Lemma omap_raises {A B} (f : A -> Outcome B) (l : list A) (x : A) (e : Exn) :
  In x l -> f x = Raise e ->
  exists x' e', In x' l /\ f x' = Raise e' /\ omap f l = Raise e'.
Proof.
  induction l as [|y l IH]; intros Hin Hx; [destruct Hin|].
  simpl. destruct (f y) as [b|e0] eqn:Hy.
  - destruct Hin as [->|Hin]; [congruence|].
    destruct (IH Hin Hx) as (x' & e' & Hin' & Hx' & Hl).
    exists x', e'. simpl. rewrite Hl. auto.
  - exists y, e0. simpl. auto.
Qed.

Lemma py_iter_raises_TypeError (v : PyVal) (e : Exn) :
  py_iter v = Raise e -> exists msg, e = TypeError msg.
Proof.
  destruct v; simpl; try discriminate.
  - destruct (shape t) eqn:Hs.
    + intros H; inversion H; eauto.
    + unfold torch_unbind. rewrite Hs. discriminate.
  - intros H; inversion H; eauto.
Qed.

Lemma zip_star_length (n : nat) (cols : list (list PyVal)) :
  length (zip_star n cols) = n.
Proof.
  revert cols; induction n as [|n IH]; intros cols; simpl; [reflexivity|].
  now rewrite IH.
Qed.

(** [zip] transposes: its [i]-th tuple holds the [i]-th item of each column. *)
Lemma zip_star_transpose (n : nat) (cols : list (list PyVal)) :
  zip_star n cols =
  map (fun i => map (fun c => nth i c (VAtom ANone)) cols) (seq 0 n).
Proof.
  revert cols; induction n as [|n IH]; intros cols; [reflexivity|].
  cbn [zip_star seq map]. f_equal.
  - apply map_ext. intros [|x c]; reflexivity.
  - rewrite IH, <- seq_shift, map_map. apply map_ext. intros i.
    rewrite map_map. apply map_ext. intros [|x c]; [now destruct i|reflexivity].
Qed.

Lemma zip_star_row_length (n : nat) (cols : list (list PyVal))
  (t : list PyVal) :
  In t (zip_star n cols) -> length t = length cols.
Proof.
  rewrite zip_star_transpose. intros H.
  apply in_map_iff in H as (i & <- & _). now rewrite length_map.
Qed.

Lemma map_fst_combine {A B} (l : list A) (l' : list B) :
  length l = length l' -> map fst (combine l l') = l.
Proof.
  revert l'; induction l as [|a l IH]; intros [|b l'] H; simpl in *;
    try discriminate; [reflexivity|]. f_equal. apply IH. lia.
Qed.

Lemma map_snd_combine {A B} (l : list A) (l' : list B) :
  length l = length l' -> map snd (combine l l') = l'.
Proof.
  revert l'; induction l as [|a l IH]; intros [|b l'] H; simpl in *;
    try discriminate; [reflexivity|]. f_equal. apply IH. lia.
Qed.

Lemma dict_set_fresh (k : string) (v : PyVal) (d : list (string * PyVal)) :
  ~ In k (map fst d) -> dict_set k v d = d ++ [(k, v)].
Proof.
  induction d as [|[k' v'] d IH]; intros H; simpl; [reflexivity|].
  destruct (String.eqb_spec k k') as [->|Hne].
  - exfalso. apply H. now left.
  - rewrite IH; [reflexivity|]. intros Hin. apply H. now right.
Qed.

(** [dict] of pairs with distinct keys keeps the pairs as they are. *)
Lemma dict_of_NoDup (pairs : list (string * PyVal)) :
  NoDup (map fst pairs) -> dict_of pairs = pairs.
Proof.
  unfold dict_of.
  assert (H : forall acc,
    NoDup (map fst (acc ++ pairs)) ->
    fold_left (fun d kv => dict_set (fst kv) (snd kv) d) pairs acc
    = acc ++ pairs).
  { induction pairs as [|[k v] pairs IH]; intros acc Hnd; simpl.
    - now rewrite app_nil_r.
    - rewrite dict_set_fresh.
      + rewrite IH; rewrite <- app_assoc; [reflexivity|exact Hnd].
      + rewrite map_app in Hnd. simpl in Hnd.
        apply NoDup_remove_2 in Hnd. intros Hin. apply Hnd.
        apply in_or_app. now left. }
  intros Hnd. exact (H [] Hnd).
Qed.

Lemma omap_fallthrough (items : list PyVal) :
  forallb fallthrough items = true ->
  omap default_uncollate items = Ret items.
Proof.
  intros H. rewrite (@omap_ret _ _ (fun x => x)); [now rewrite map_id|].
  intros x Hx. rewrite forallb_forall in H. specialize (H x Hx).
  destruct x; try discriminate; reflexivity.
Qed.

(** The tuple of a [zip] row is uncollated into a list of the same length. *)
Lemma uncollate_row (t : list PyVal) (r : PyVal) :
  default_uncollate (VSeq TTuple t) = Ret r ->
  exists l, r = VSeq TList l /\ py_iter r = Ret l /\ length l = length t.
Proof.
  rewrite default_uncollate_Sequence.
  destruct (omap default_uncollate t) as [l|e] eqn:Hl; [|discriminate].
  intros H; inversion H; subst. exists l. repeat split.
  exact (omap_length _ _ Hl).
Qed.

(** X1: when the Mapping clause returns, it returns as many samples as the
    shortest of the batch's values has items ([zip] stops at the shortest);
    a mapping without keys gives no sample. *)
Theorem uncollate_mapping_sample_count (cls : string)
  (items : list (string * PyVal)) (cols : list (list PyVal)) (r : PyVal) :
  omap py_iter (map snd items) = Ret cols ->
  default_uncollate (VMapping cls items) = Ret r ->
  exists samples, r = VSeq TList samples /\ length samples = min_length cols.
Proof.
  intros Hcols H. rewrite default_uncollate_Mapping, Hcols in H.
  cbn [obind] in H.
  match type of H with context [omap ?f ?l] =>
    destruct (omap f l) as [rows|e] eqn:Hrows end; [|discriminate].
  inversion H; subst. exists rows. split; [reflexivity|].
  rewrite (omap_length _ _ Hrows). unfold py_zip. apply zip_star_length.
Qed.

Lemma uncollate_mapping_sample_count_witness :
  let items :=
    [("x", VSeq TList [VAtom (AInt 1); VAtom (AInt 2); VAtom (AInt 3)]);
     ("y", VStr "ab")] in
  let r :=
    VSeq TList [VMapping "dict" [("x", VAtom (AInt 1)); ("y", VStr "a")];
                VMapping "dict" [("x", VAtom (AInt 2)); ("y", VStr "b")]] in
  default_uncollate (VMapping "dict" items) = Ret r /\
  exists samples, r = VSeq TList samples /\ length samples = 2.
Proof.
  split; [reflexivity|].
  exact (@uncollate_mapping_sample_count "dict"
           [("x", VSeq TList [VAtom (AInt 1); VAtom (AInt 2); VAtom (AInt 3)]);
            ("y", VStr "ab")]
           [[VAtom (AInt 1); VAtom (AInt 2); VAtom (AInt 3)];
            [VStr "a"; VStr "b"]]
           _ eq_refl eq_refl).
Defined.

(** X2: every sample returned for a Mapping batch (whose keys are distinct,
    as those of a dict are) has exactly the keys of the batch, in the order of
    the batch. *)
Theorem uncollate_mapping_keeps_keys (cls : string)
  (items : list (string * PyVal)) (r : PyVal) :
  NoDup (map fst items) ->
  default_uncollate (VMapping cls items) = Ret r ->
  exists samples,
    r = VSeq TList samples /\
    Forall (fun s => exists d, s = VMapping cls d /\ map fst d = map fst items)
           samples.
Proof.
  intros Hnd H. rewrite default_uncollate_Mapping in H.
  destruct (omap py_iter (map snd items)) as [cols|e] eqn:Hcols; [|discriminate].
  cbn [obind] in H.
  match type of H with context [omap ?f ?l] =>
    destruct (omap f l) as [rows|e] eqn:Hrows end; [|discriminate].
  inversion H; subst. exists rows. split; [reflexivity|].
  eapply omap_Forall; [|exact Hrows]. cbv beta. intros t y Ht Hy.
  destruct (default_uncollate (VSeq TTuple t)) as [r0|e] eqn:Hr0; [|discriminate].
  destruct (uncollate_row _ Hr0) as (l & -> & Hit & Hlen).
  cbn [obind py_iter] in Hy. rewrite (mapping_new_returns _ _ Hy).
  assert (Hkeys : map fst (combine (map fst items) l) = map fst items).
  { apply map_fst_combine. rewrite Hlen.
    rewrite (zip_star_row_length _ _ _ Ht), (omap_length _ _ Hcols).
    now rewrite !length_map. }
  eexists. split; [reflexivity|].
  rewrite dict_of_NoDup; rewrite Hkeys; [reflexivity|exact Hnd].
Qed.

Lemma uncollate_mapping_keeps_keys_witness :
  let items := [("x", VTensor (mkTensor [1; 1] [7%Z])); ("y", VStr "a")] in
  let r :=
    VSeq TList
      [VMapping "dict" [("x", VSeq TList [VTensor (mkTensor [] [7%Z])]);
                        ("y", VStr "a")]] in
  default_uncollate (VMapping "dict" items) = Ret r /\
  exists samples,
    r = VSeq TList samples /\
    Forall (fun s => exists d, s = VMapping "dict" d /\ map fst d = ["x"; "y"])
           samples.
Proof.
  split; [reflexivity|].
  refine (@uncollate_mapping_keeps_keys "dict"
           [("x", VTensor (mkTensor [1; 1] [7%Z])); ("y", VStr "a")]
           _ _ eq_refl).
  repeat constructor; simpl; intuition discriminate.
Defined.

(** X3: a Mapping batch holding a value that cannot be iterated (a number,
    [None], a 0-d tensor) makes [default_uncollate] raise [TypeError]. *)
Theorem uncollate_mapping_uniterable_value (cls : string)
  (items : list (string * PyVal)) (v : PyVal) (e : Exn) :
  In v (map snd items) ->
  py_iter v = Raise e ->
  exists msg, default_uncollate (VMapping cls items) = Raise (TypeError msg).
Proof.
  intros Hin Hv. rewrite default_uncollate_Mapping.
  destruct (omap_raises py_iter _ _ Hin Hv) as (v' & e' & _ & Hv' & ->).
  destruct (py_iter_raises_TypeError _ Hv') as [msg ->].
  exists msg. reflexivity.
Qed.

Lemma uncollate_mapping_uniterable_value_witness :
  exists msg,
    default_uncollate
      (VMapping "dict" [("x", VSeq TList [VAtom (AInt 1)]);
                        ("label", VAtom (AInt 3))])
    = Raise (TypeError msg).
Proof.
  exact (@uncollate_mapping_uniterable_value "dict"
           [("x", VSeq TList [VAtom (AInt 1)]); ("label", VAtom (AInt 3))]
           (VAtom (AInt 3)) _ (or_intror (or_introl eq_refl)) eq_refl).
Defined.

Lemma uncollate_fallthrough_sequence (ty : SeqType) (items : list PyVal) :
  forallb fallthrough items = true ->
  default_uncollate (VSeq ty items) = Ret (VSeq TList items).
Proof.
  intros H. now rewrite default_uncollate_Sequence, omap_fallthrough.
Qed.

(** The rows [zip] makes of columns of [n] fall-through items each. *)
Lemma transposed_rows (colls : list (list PyVal)) (n : nat) (t : list PyVal) :
  (forall c, In c colls -> length c = n /\ forallb fallthrough c = true) ->
  In t (map (fun i => map (fun c => nth i c (VAtom ANone)) colls) (seq 0 n)) ->
  length t = length colls /\ forallb fallthrough t = true.
Proof.
  intros Hc Ht. apply in_map_iff in Ht as (i & <- & Hi).
  apply in_seq in Hi. split; [now rewrite length_map|].
  apply forallb_forall. intros x Hx.
  apply in_map_iff in Hx as (c & <- & Hin).
  destruct (Hc c Hin) as [Hlen Hft].
  rewrite forallb_forall in Hft. apply Hft, nth_In. lia.
Qed.

Lemma py_zip_uniform (colls : list (list PyVal)) (n : nat) :
  colls <> [] ->
  (forall c, In c colls -> length c = n) ->
  py_zip colls =
  map (fun i => map (fun c => nth i c (VAtom ANone)) colls) (seq 0 n).
Proof.
  intros Hne Hc. destruct colls as [|c colls]; [congruence|].
  unfold py_zip. rewrite (@min_length_uniform n c colls) by exact Hc.
  apply zip_star_transpose.
Qed.

(** X4: a [dict] or [OrderedDict] batch whose values all iterate into [n]
    items that are strings, numbers and the like is uncollated into the [n]
    per-sample mappings of the same class: the [i]-th sends every key to the
    [i]-th item of its value. *)
Theorem uncollate_mapping_transposes (cls : string) (keys : list string)
  (vals : list PyVal) (colls : list (list PyVal)) (n : nat) :
  cls = "dict" \/ cls = "OrderedDict" ->
  NoDup keys ->
  keys <> [] ->
  length vals = length keys ->
  omap py_iter vals = Ret colls ->
  (forall c, In c colls -> length c = n /\ forallb fallthrough c = true) ->
  default_uncollate (VMapping cls (combine keys vals)) =
  Ret (VSeq TList
         (map (fun i =>
                 VMapping cls
                   (combine keys (map (fun c => nth i c (VAtom ANone)) colls)))
              (seq 0 n))).
Proof.
  intros Hcls Hnd Hne Hlen Hcols Hc.
  assert (Hnew : forall d, mapping_new cls d = Ret (VMapping cls d))
    by (destruct Hcls as [-> | ->]; reflexivity).
  assert (Hlc : length colls = length keys)
    by (rewrite (omap_length _ _ Hcols); exact Hlen).
  rewrite default_uncollate_Mapping.
  rewrite map_snd_combine, map_fst_combine by congruence.
  rewrite Hcols. cbn [obind].
  rewrite (@py_zip_uniform colls n).
  - rewrite (@omap_ret _ _ (fun t => VMapping cls (combine keys t))).
    + cbn [obind]. now rewrite map_map.
    + intros t Ht. destruct (transposed_rows _ _ Hc Ht) as [Hlt Hft].
      rewrite (uncollate_fallthrough_sequence _ _ Hft). cbn [obind py_iter].
      rewrite Hnew, dict_of_NoDup; [reflexivity|].
      rewrite map_fst_combine by congruence. exact Hnd.
  - intros ->. destruct keys; [congruence|simpl in Hlc; discriminate Hlc].
  - intros c Hin. now apply Hc.
Qed.

Lemma uncollate_mapping_transposes_witness :
  default_uncollate
    (VMapping "dict"
       [("id", VSeq TList [VAtom (AInt 4); VAtom (AInt 5)]);
        ("name", VSeq TTuple [VStr "ann"; VStr "bob"])])
  = Ret (VSeq TList
      [VMapping "dict" [("id", VAtom (AInt 4)); ("name", VStr "ann")];
       VMapping "dict" [("id", VAtom (AInt 5)); ("name", VStr "bob")]]).
Proof.
  apply (@uncollate_mapping_transposes "dict" ["id"; "name"]
           [VSeq TList [VAtom (AInt 4); VAtom (AInt 5)];
            VSeq TTuple [VStr "ann"; VStr "bob"]]
           [[VAtom (AInt 4); VAtom (AInt 5)]; [VStr "ann"; VStr "bob"]] 2).
  - left; reflexivity.
  - repeat constructor; simpl; intuition discriminate.
  - discriminate.
  - reflexivity.
  - reflexivity.
  - intros c [<-|[<-|[]]]; split; reflexivity.
Defined.

(** X5: a namedtuple batch (with as many values as fields) whose values all
    iterate into [n] items that are strings, numbers and the like is
    uncollated into [n] namedtuples of the same class, the [i]-th holding the
    [i]-th item of every field. *)
Theorem uncollate_namedtuple_transposes (cls : string) (fields : list string)
  (vals : list PyVal) (colls : list (list PyVal)) (n : nat) :
  vals <> [] ->
  length vals = length fields ->
  omap py_iter vals = Ret colls ->
  (forall c, In c colls -> length c = n /\ forallb fallthrough c = true) ->
  default_uncollate (VNamedTuple cls fields vals) =
  Ret (VSeq TList
         (map (fun i =>
                 VNamedTuple cls fields
                   (map (fun c => nth i c (VAtom ANone)) colls))
              (seq 0 n))).
Proof.
  intros Hne Hlen Hcols Hc.
  assert (Hlc : length colls = length fields)
    by (rewrite (omap_length _ _ Hcols); exact Hlen).
  rewrite default_uncollate_namedtuple, Hcols. cbn [obind].
  rewrite (@py_zip_uniform colls n).
  - rewrite (@omap_ret _ _ (fun t => VNamedTuple cls fields t)).
    + cbn [obind]. now rewrite map_map.
    + intros t Ht. destruct (transposed_rows _ _ Hc Ht) as [Hlt Hft].
      rewrite (uncollate_fallthrough_sequence _ _ Hft). cbn [obind py_iter].
      unfold namedtuple_new. rewrite Hlt, Hlc, Nat.eqb_refl. reflexivity.
  - intros ->. destruct vals; [congruence|simpl in Hlen, Hlc; lia].
  - intros c Hin. now apply Hc.
Qed.

Lemma uncollate_namedtuple_transposes_witness :
  default_uncollate
    (VNamedTuple "Row" ["id"; "name"]
       [VSeq TList [VAtom (AInt 4); VAtom (AInt 5)]; VStr "ab"])
  = Ret (VSeq TList
      [VNamedTuple "Row" ["id"; "name"] [VAtom (AInt 4); VStr "a"];
       VNamedTuple "Row" ["id"; "name"] [VAtom (AInt 5); VStr "b"]]).
Proof.
  apply (@uncollate_namedtuple_transposes "Row" ["id"; "name"]
           [VSeq TList [VAtom (AInt 4); VAtom (AInt 5)]; VStr "ab"]
           [[VAtom (AInt 4); VAtom (AInt 5)]; [VStr "a"; VStr "b"]] 2).
  - discriminate.
  - reflexivity.
  - reflexivity.
  - intros c [<-|[<-|[]]]; split; reflexivity.
Defined.

Lemma chunks_seq (n size : nat) (l : list Z) :
  chunks n size l =
  map (fun i => firstn size (skipn (i * size) l)) (seq 0 n).
Proof.
  revert l; induction n as [|n IH]; intros l; [reflexivity|].
  cbn [chunks seq map]. f_equal. rewrite IH, <- seq_shift, map_map.
  apply map_ext. intros i. rewrite skipn_skipn.
  now replace (i * size + size) with (S i * size) by lia.
Qed.

(** [torch.unbind(t, 0)] returns the slices [t[0]], ..., [t[n-1]]. *)
Lemma torch_unbind_slices (t : Tensor) :
  shape t <> [] -> torch_unbind t = Ret (slices t).
Proof.
  intros Hs. unfold torch_unbind, slices, tensor_select.
  destruct (shape t) as [|n rest]; [congruence|].
  cbn [hd tl]. now rewrite chunks_seq, map_map.
Qed.

(** X6: a list or tuple of strings, numbers and the like is returned as a
    list of the same items; the strings in it are not split. *)
Theorem uncollate_sequence_of_scalars (ty : SeqType) (items : list PyVal) :
  forallb fallthrough items = true ->
  default_uncollate (VSeq ty items) = Ret (VSeq TList items).
Proof.
  intros H. rewrite default_uncollate_Sequence.
  rewrite (@omap_ret _ _ (fun x => x)); [now rewrite map_id|].
  intros x Hx. rewrite forallb_forall in H. specialize (H x Hx).
  destruct x; try discriminate; reflexivity.
Qed.

Lemma uncollate_sequence_of_scalars_witness :
  default_uncollate (VSeq TTuple [VStr "cat"; VAtom (AInt 3); VAtom ANone])
  = Ret (VSeq TList [VStr "cat"; VAtom (AInt 3); VAtom ANone]).
Proof.
  exact (@uncollate_sequence_of_scalars TTuple
           [VStr "cat"; VAtom (AInt 3); VAtom ANone] eq_refl).
Defined.

(** X7: a list or tuple of tensors is uncollated tensor by tensor, not
    sample by sample: the result has one entry per tensor of the batch, the
    list of that tensor's slices along dimension 0. *)
Theorem uncollate_sequence_of_tensors (ty : SeqType) (ts : list Tensor) :
  (forall t, In t ts -> shape t <> []) ->
  default_uncollate (VSeq ty (map VTensor ts)) =
  Ret (VSeq TList
         (map (fun t => VSeq TList (map VTensor (slices t))) ts)).
Proof.
  intros Hts. rewrite default_uncollate_Sequence.
  rewrite (@omap_ret _ _
             (fun v => match v with
                       | VTensor t => VSeq TList (map VTensor (slices t))
                       | _ => v
                       end)).
  - cbn [obind]. now rewrite map_map.
  - intros v Hv. apply in_map_iff in Hv as (t & <- & Ht).
    now rewrite default_uncollate_Tensor, (torch_unbind_slices _ (Hts t Ht)).
Qed.

Lemma uncollate_sequence_of_tensors_witness :
  default_uncollate
    (VSeq TList [VTensor (mkTensor [2] [1; 2]%Z);
                 VTensor (mkTensor [3] [7; 8; 9]%Z)])
  = Ret (VSeq TList
      [VSeq TList [VTensor (mkTensor [] [1%Z]); VTensor (mkTensor [] [2%Z])];
       VSeq TList [VTensor (mkTensor [] [7%Z]); VTensor (mkTensor [] [8%Z]);
                   VTensor (mkTensor [] [9%Z])]]).
Proof.
  apply (@uncollate_sequence_of_tensors TList
           [mkTensor [2] [1; 2]%Z; mkTensor [3] [7; 8; 9]%Z]).
  intros t [<-|[<-|[]]]; discriminate.
Defined.

(** X8: a list or tuple batch with a 0-d tensor among its items cannot be
    uncollated: [default_uncollate] raises. *)
Theorem uncollate_sequence_with_0d_tensor (ty : SeqType)
  (items : list PyVal) (t : Tensor) :
  In (VTensor t) items ->
  shape t = [] ->
  exists e, default_uncollate (VSeq ty items) = Raise e.
Proof.
  intros Hin Hs. rewrite default_uncollate_Sequence.
  assert (Ht : default_uncollate (VTensor t) = Raise (IndexError unbind_0d_msg)).
  { rewrite default_uncollate_Tensor. unfold torch_unbind. now rewrite Hs. }
  destruct (omap_raises default_uncollate _ _ Hin Ht) as (x & e & _ & _ & ->).
  exists e. reflexivity.
Qed.

Lemma uncollate_sequence_with_0d_tensor_witness :
  exists e,
    default_uncollate
      (VSeq TList [VTensor (mkTensor [2] [1; 2]%Z);
                   VTensor (mkTensor [] [5%Z])])
    = Raise e.
Proof.
  apply (@uncollate_sequence_with_0d_tensor TList
           [VTensor (mkTensor [2] [1; 2]%Z); VTensor (mkTensor [] [5%Z])]
           (mkTensor [] [5%Z])).
  - right; left; reflexivity.
  - reflexivity.
Defined.

(* ================================================================== *)
(** ** Further properties of the [forward] methods *)

Section MonadSteps.

Variable W : Type.

Lemma bind_returns {A B} (m : M W A) (k : A -> M W B) (st st' : W * list Event)
  (a : A) (H : m st = (Ret a, st')) :
  bind m k st = k a st'.
Proof. unfold bind. now rewrite H. Qed.

Lemma bind_raises {A B} (m : M W A) (k : A -> M W B) (st st' : W * list Event)
  (e : Exn) (H : m st = (Raise e, st')) :
  bind m k st = (Raise e, st').
Proof. unfold bind. now rewrite H. Qed.

(** A comprehension stops at the first call that raises. *)
Lemma mapM_first_raise (a : Attr) (f : Callable W) (w w1 w2 : W)
  (xs ys rest : list PyVal) (x : PyVal) (e : Exn) :
  each_called f w xs ys w1 ->
  f x w1 = (Raise e, w2) ->
  forall tr,
    mapM (call a f) (xs ++ x :: rest) (w, tr)
    = (Raise e, (w2, tr ++ map (Call a) (xs ++ [x]))).
Proof.
  induction 1 as [w|w x0 y w0 xs ys w1 Hx Hxs IH]; intros Hraise tr.
  - cbn [app mapM map]. apply bind_raises. now rewrite call_eq, Hraise.
  - cbn [app mapM map].
    rewrite (@bind_returns _ _ _ _ (w, tr) (w0, tr ++ [Call a x0]) y)
      by now rewrite call_eq, Hx.
    rewrite (@bind_raises _ _ _ _ _ _ e (IH Hraise (tr ++ [Call a x0]))).
    now rewrite <- app_assoc.
Qed.

Lemma each_called_length (f : Callable W) (w w' : W) (xs ys : list PyVal) :
  each_called f w xs ys w' -> length ys = length xs.
Proof. induction 1; simpl; congruence. Qed.

(** A callable that leaves the state alone and always returns is called on
    each item without trace in the state. *)
Lemma each_called_pure (g : PyVal -> PyVal) (w : W) (xs : list PyVal) :
  each_called (pure_callable (fun x => Ret (g x))) w xs (map g xs) w.
Proof.
  induction xs as [|x xs IH]; simpl.
  - apply each_called_nil.
  - now apply each_called_cons with (w1 := w).
Qed.

End MonadSteps.

(* ------------------------------------------------------------------ *)
(** *** Failures in [_Sequential.forward] *)

Section SequentialFailures.

Variable W : Type.
Variable _contains_any_tensor : PyVal -> bool.

Import _Sequential.

(** X9: an exception raised by [pre_tensor_transform] or by
    [to_tensor_transform] leaves [forward] as it is, and nothing is called
    after the transform that raised. *)
Theorem sequential_forward_stops_at_failure (self : _Sequential.t W)
  (sample : PyVal) (w : W) (tr : list Event) :
  (forall e w1,
     pre_tensor_transform self sample w = (Raise e, w1) ->
     forward _contains_any_tensor self sample (w, tr)
     = (Raise e, (w1, tr ++ [Call A_pre_tensor_transform sample]))) /\
  (forall x w1 e w2,
     pre_tensor_transform self sample w = (Ret x, w1) ->
     to_tensor_transform self x w1 = (Raise e, w2) ->
     forward _contains_any_tensor self sample (w, tr)
     = (Raise e, (w2, tr ++ [Call A_pre_tensor_transform sample;
                             Call A_to_tensor_transform x]))).
Proof.
  split.
  - intros e w1 Hpre. unfold forward. apply bind_raises.
    now rewrite call_eq, Hpre.
  - intros x w1 e w2 Hpre Hto. unfold forward.
    rewrite bind_call_ret with (1 := Hpre).
    erewrite bind_raises; [|now rewrite call_eq, Hto].
    now rewrite <- app_assoc.
Qed.

End SequentialFailures.

(* ------------------------------------------------------------------ *)
(** *** Failures in [_PreProcessor.forward] *)

Section PreProcessorFailures.

Variable W : Type.
Variable class_new : PyType -> Callable W.

Import _PreProcessor.

(** X10: when [per_sample_transform] raises on a sample, [forward] raises
    the same exception; the samples after it are not transformed and neither
    [collate_fn] nor [per_batch_transform] is called. *)
Theorem preprocessor_forward_stops_at_failure (self : _PreProcessor.t W)
  (samples x : PyVal) (xs ys rest : list PyVal) (e : Exn)
  (w w1 w2 : W) (tr : list Event) :
  apply_per_sample_transform self = true ->
  py_iter samples = Ret (xs ++ x :: rest) ->
  each_called (per_sample_transform self) w xs ys w1 ->
  per_sample_transform self x w1 = (Raise e, w2) ->
  forward class_new self samples (w, tr)
  = (Raise e, (w2, tr ++ map (Call A_per_sample_transform) (xs ++ [x]))).
Proof.
  intros Happly Hiter Hxs Hx. unfold forward. rewrite Happly.
  apply bind_raises. unfold bind at 1. unfold lift at 1. rewrite Hiter.
  apply bind_raises.
  exact (@mapM_first_raise W A_per_sample_transform _ w w1 w2 xs ys rest x e
           Hxs Hx tr).
Qed.

(** X11: with [apply_per_sample_transform] true, samples that cannot be
    iterated (a number, [None], a 0-d tensor) make [forward] raise
    [TypeError] before any callable is called. *)
Theorem preprocessor_forward_not_iterable (self : _PreProcessor.t W)
  (samples : PyVal) (e : Exn) (w : W) (tr : list Event) :
  apply_per_sample_transform self = true ->
  py_iter samples = Raise e ->
  forward class_new self samples (w, tr) = (Raise e, (w, tr)) /\
  exists msg, e = TypeError msg.
Proof.
  intros Happly Hiter. split.
  - unfold forward. rewrite Happly. apply bind_raises. apply bind_raises.
    unfold lift. now rewrite Hiter.
  - exact (py_iter_raises_TypeError _ Hiter).
Qed.

End PreProcessorFailures.

(* ------------------------------------------------------------------ *)
(** *** Saving and failures in [_PostProcessor.forward] *)

Section PostProcessorSaving.

Variable W : Type.
Variable class_new : PyType -> Callable W.

Import _PostProcessor.

(** The run of [forward] up to [final_preds], for a list or tuple of
    uncollated samples. *)
Lemma forward_up_to_final_preds (self : _PostProcessor.t W)
  (batch b : PyVal) (ty : SeqType) (items ys : list PyVal)
  (w w1 w2 w3 : W) (tr : list Event)
  (Hty : ty = TList \/ ty = TTuple)
  (Hbatch : per_batch_transform self batch w = (Ret b, w1))
  (Hunc : uncollate_fn self b w1 = (Ret (VSeq ty items), w2))
  (Hmap : each_called (per_sample_transform self) w2 items ys w3) :
  forward class_new self batch (w, tr) =
  (match save_fn self with
   | Some save =>
       if save_bool save then
         if save_per_sample self then
           preds <- lift (py_iter (VSeq ty ys)) ;;
           _ <- mapM (call A_save_fn (save_call save)) preds ;;
           ret (VAtom ANone)
         else
           _ <- call A_save_fn (save_call save) (VSeq ty ys) ;;
           ret (VAtom ANone)
       else ret (VSeq ty ys)
   | None => ret (VSeq ty ys)
   end)
    (w3, tr ++ [Call A_per_batch_transform batch; Call A_uncollate_fn b]
            ++ map (Call A_per_sample_transform) items).
Proof.
  unfold forward.
  rewrite bind_call_ret with (1 := Hbatch).
  rewrite bind_call_ret with (1 := Hunc).
  unfold bind at 1. unfold lift at 1. cbn [py_iter].
  unfold bind at 1.
  rewrite (@mapM_each_called W A_per_sample_transform _ _ _ _ _ Hmap).
  cbn [py_type]. repeat rewrite <- app_assoc. cbn [app].
  destruct Hty as [-> | ->]; cbn [type_call py_iter];
    unfold bind at 1; unfold bind at 1; unfold lift at 1; unfold ret at 1;
    reflexivity.
Qed.

(** X12: with a [save_fn] that is true as a truth value, [save_per_sample]
    false and a list or tuple returned by [uncollate_fn], [forward] passes
    the whole container of transformed samples to [save_fn] in one call,
    after all the transforms, and returns [None]. *)
Theorem postprocessor_forward_saves_whole (self : _PostProcessor.t W)
  (save : SaveFn W) (batch b z : PyVal) (ty : SeqType)
  (items ys : list PyVal) (w w1 w2 w3 w4 : W) (tr : list Event) :
  save_fn self = Some save ->
  save_bool save = true ->
  save_per_sample self = false ->
  ty = TList \/ ty = TTuple ->
  per_batch_transform self batch w = (Ret b, w1) ->
  uncollate_fn self b w1 = (Ret (VSeq ty items), w2) ->
  each_called (per_sample_transform self) w2 items ys w3 ->
  save_call save (VSeq ty ys) w3 = (Ret z, w4) ->
  forward class_new self batch (w, tr) =
    (Ret (VAtom ANone),
     (w4,
      tr ++ [Call A_per_batch_transform batch; Call A_uncollate_fn b]
         ++ map (Call A_per_sample_transform) items
         ++ [Call A_save_fn (VSeq ty ys)])).
Proof.
  intros Hsave Htrue Hper Hty Hbatch Hunc Hmap Hz.
  rewrite (@forward_up_to_final_preds self batch b ty items ys w w1 w2 w3 tr
             Hty Hbatch Hunc Hmap).
  rewrite Hsave, Htrue, Hper. rewrite bind_call_ret with (1 := Hz).
  unfold ret. repeat rewrite <- app_assoc. reflexivity.
Qed.

(** X13: with a [save_fn] that is true as a truth value, [save_per_sample]
    true and a list or tuple returned by [uncollate_fn], [forward] calls
    [save_fn] once on every transformed sample, in order and after all the
    transforms, and returns [None]. *)
Theorem postprocessor_forward_saves_each (self : _PostProcessor.t W)
  (save : SaveFn W) (batch b : PyVal) (ty : SeqType)
  (items ys zs : list PyVal) (w w1 w2 w3 w4 : W) (tr : list Event) :
  save_fn self = Some save ->
  save_bool save = true ->
  save_per_sample self = true ->
  ty = TList \/ ty = TTuple ->
  per_batch_transform self batch w = (Ret b, w1) ->
  uncollate_fn self b w1 = (Ret (VSeq ty items), w2) ->
  each_called (per_sample_transform self) w2 items ys w3 ->
  each_called (save_call save) w3 ys zs w4 ->
  forward class_new self batch (w, tr) =
    (Ret (VAtom ANone),
     (w4,
      tr ++ [Call A_per_batch_transform batch; Call A_uncollate_fn b]
         ++ map (Call A_per_sample_transform) items
         ++ map (Call A_save_fn) ys)).
Proof.
  intros Hsave Htrue Hper Hty Hbatch Hunc Hmap Hzs.
  rewrite (@forward_up_to_final_preds self batch b ty items ys w w1 w2 w3 tr
             Hty Hbatch Hunc Hmap).
  rewrite Hsave, Htrue, Hper. unfold bind at 1. unfold lift at 1. cbn [py_iter].
  unfold bind at 1.
  rewrite (@mapM_each_called W A_save_fn _ _ _ _ _ Hzs).
  unfold ret. repeat rewrite <- app_assoc. reflexivity.
Qed.

(** X25: a [save_fn] that is false as a truth value (an empty
    [nn.Sequential]) is never called: with a list or tuple returned by
    [uncollate_fn], [forward] returns the container of transformed samples
    as it does without [save_fn]. *)
Theorem postprocessor_forward_falsy_save_fn (self : _PostProcessor.t W)
  (save : SaveFn W) (batch b : PyVal) (ty : SeqType)
  (items ys : list PyVal) (w w1 w2 w3 : W) (tr : list Event) :
  save_fn self = Some save ->
  save_bool save = false ->
  ty = TList \/ ty = TTuple ->
  per_batch_transform self batch w = (Ret b, w1) ->
  uncollate_fn self b w1 = (Ret (VSeq ty items), w2) ->
  each_called (per_sample_transform self) w2 items ys w3 ->
  forward class_new self batch (w, tr) =
    (Ret (VSeq ty ys),
     (w3,
      tr ++ [Call A_per_batch_transform batch; Call A_uncollate_fn b]
         ++ map (Call A_per_sample_transform) items)).
Proof.
  intros Hsave Hfalse Hty Hbatch Hunc Hmap.
  rewrite (@forward_up_to_final_preds self batch b ty items ys w w1 w2 w3 tr
             Hty Hbatch Hunc Hmap).
  now rewrite Hsave, Hfalse.
Qed.

(** X14: when [uncollate_fn] returns a value that cannot be iterated (a
    number, [None], a 0-d tensor), [forward] raises [TypeError]: neither
    [per_sample_transform] nor [save_fn] is called. *)
Theorem postprocessor_forward_not_iterable (self : _PostProcessor.t W)
  (batch b u : PyVal) (e : Exn) (w w1 w2 : W) (tr : list Event) :
  per_batch_transform self batch w = (Ret b, w1) ->
  uncollate_fn self b w1 = (Ret u, w2) ->
  py_iter u = Raise e ->
  forward class_new self batch (w, tr) =
    (Raise e,
     (w2, tr ++ [Call A_per_batch_transform batch; Call A_uncollate_fn b])) /\
  exists msg, e = TypeError msg.
Proof.
  intros Hbatch Hunc Hiter. split.
  - unfold forward.
    rewrite bind_call_ret with (1 := Hbatch).
    rewrite bind_call_ret with (1 := Hunc).
    erewrite bind_raises; [|unfold lift; now rewrite Hiter].
    now rewrite <- app_assoc.
  - exact (py_iter_raises_TypeError _ Hiter).
Qed.

(** X15: with [default_uncollate] as [uncollate_fn] and no [save_fn], a
    tensor batch of first dimension [n] coming out of [per_batch_transform]
    gives a list of exactly [n] predictions: [per_sample_transform] is called
    on the slices of the batch in order. *)
Theorem postprocessor_default_uncollate_tensor (self : _PostProcessor.t W)
  (batch : PyVal) (t : Tensor) (n : nat) (rest : list nat)
  (ys : list PyVal) (w w1 w3 : W) (tr : list Event) :
  uncollate_fn self = pure_callable default_uncollate ->
  save_fn self = None ->
  per_batch_transform self batch w = (Ret (VTensor t), w1) ->
  shape t = n :: rest ->
  each_called (per_sample_transform self) w1 (map VTensor (slices t)) ys w3 ->
  forward class_new self batch (w, tr) =
    (Ret (VSeq TList ys),
     (w3,
      tr ++ [Call A_per_batch_transform batch; Call A_uncollate_fn (VTensor t)]
         ++ map (Call A_per_sample_transform) (map VTensor (slices t)))) /\
  length ys = n.
Proof.
  intros Hdef Hsave Hbatch Hs Hmap. split.
  - assert (Hunc : uncollate_fn self (VTensor t) w1
                   = (Ret (VSeq TList (map VTensor (slices t))), w1)).
    { rewrite Hdef. unfold pure_callable.
      rewrite default_uncollate_Tensor, torch_unbind_slices by congruence.
      reflexivity. }
    rewrite (@forward_up_to_final_preds self batch (VTensor t) TList
               (map VTensor (slices t)) ys w w1 w1 w3 tr (or_introl eq_refl)
               Hbatch Hunc Hmap).
    now rewrite Hsave.
  - rewrite (each_called_length Hmap), length_map. unfold slices.
    now rewrite length_map, length_seq, Hs.
Qed.

End PostProcessorSaving.

(* ------------------------------------------------------------------ *)
(** *** Saving and failures on the example instances *)

Section FailureExamples.

Import Examples MoreExamples.

Lemma sequential_forward_stops_at_failure_witness :
  _Sequential.forward any_tensor sequential_rejecting_pre two (0, [])
    = (Raise (UserException "bad sample"),
       (1, [Call A_pre_tensor_transform two])) /\
  _Sequential.forward any_tensor sequential_rejecting_to two (0, [])
    = (Raise (UserException "bad sample"),
       (2, [Call A_pre_tensor_transform two; Call A_to_tensor_transform two])).
Proof.
  split.
  - apply (proj1 (@sequential_forward_stops_at_failure nat any_tensor
                    sequential_rejecting_pre two 0 [])).
    reflexivity.
  - apply (proj2 (@sequential_forward_stops_at_failure nat any_tensor
                    sequential_rejecting_to two 0 []) two 1).
    + reflexivity.
    + reflexivity.
Defined.

Lemma preprocessor_forward_stops_at_failure_witness :
  _PreProcessor.forward no_class_new preprocessor_rejecting
    (VSeq TList [one; two; three]) (0, [])
  = (Raise (UserException "bad sample"),
     (2, [Call A_per_sample_transform one; Call A_per_sample_transform two])).
Proof.
  apply (@preprocessor_forward_stops_at_failure nat no_class_new
           preprocessor_rejecting (VSeq TList [one; two; three]) two
           [one] [one] [three] (UserException "bad sample") 0 1 2 []).
  - reflexivity.
  - reflexivity.
  - apply each_called_cons with (w1 := 1); [reflexivity|].
    apply each_called_nil.
  - reflexivity.
Defined.

Lemma preprocessor_forward_not_iterable_witness :
  _PreProcessor.forward no_class_new (preprocessor true) one (0, [])
    = (Raise (TypeError "object is not iterable"), (0, [])) /\
  exists msg, TypeError "object is not iterable" = TypeError msg.
Proof.
  exact (@preprocessor_forward_not_iterable nat no_class_new
           (preprocessor true) one (TypeError "object is not iterable") 0 []
           eq_refl eq_refl).
Defined.

Lemma postprocessor_forward_saves_whole_witness :
  _PostProcessor.forward no_class_new (postprocessor_saving false) t12 (0, [])
  = (Ret (VAtom ANone),
     (5, [Call A_per_batch_transform t12;
          Call A_uncollate_fn t12;
          Call A_per_sample_transform t1;
          Call A_per_sample_transform t2;
          Call A_save_fn (VSeq TList [t1; t2])])).
Proof.
  apply (@postprocessor_forward_saves_whole nat no_class_new
           (postprocessor_saving false) (_PostProcessor.mkSaveFn identity true)
           t12 t12 (VSeq TList [t1; t2])
           TList [t1; t2] [t1; t2] 0 1 2 4 5 []).
  - reflexivity.
  - reflexivity.
  - reflexivity.
  - left; reflexivity.
  - reflexivity.
  - reflexivity.
  - apply each_called_cons with (w1 := 3); [reflexivity|].
    apply each_called_cons with (w1 := 4); [reflexivity|].
    apply each_called_nil.
  - reflexivity.
Defined.

Lemma postprocessor_forward_saves_each_witness :
  _PostProcessor.forward no_class_new (postprocessor_saving true) t12 (0, [])
  = (Ret (VAtom ANone),
     (6, [Call A_per_batch_transform t12;
          Call A_uncollate_fn t12;
          Call A_per_sample_transform t1;
          Call A_per_sample_transform t2;
          Call A_save_fn t1;
          Call A_save_fn t2])).
Proof.
  apply (@postprocessor_forward_saves_each nat no_class_new
           (postprocessor_saving true) (_PostProcessor.mkSaveFn identity true)
           t12 t12
           TList [t1; t2] [t1; t2] [t1; t2] 0 1 2 4 6 []).
  - reflexivity.
  - reflexivity.
  - reflexivity.
  - left; reflexivity.
  - reflexivity.
  - reflexivity.
  - apply each_called_cons with (w1 := 3); [reflexivity|].
    apply each_called_cons with (w1 := 4); [reflexivity|].
    apply each_called_nil.
  - apply each_called_cons with (w1 := 5); [reflexivity|].
    apply each_called_cons with (w1 := 6); [reflexivity|].
    apply each_called_nil.
Defined.

Lemma postprocessor_forward_not_iterable_witness :
  _PostProcessor.forward no_class_new postprocessor_no_uncollate
    (VAtom ANone) (0, [])
    = (Raise (TypeError "object is not iterable"),
       (2, [Call A_per_batch_transform (VAtom ANone);
            Call A_uncollate_fn (VAtom ANone)])) /\
  exists msg, TypeError "object is not iterable" = TypeError msg.
Proof.
  exact (@postprocessor_forward_not_iterable nat no_class_new
           postprocessor_no_uncollate (VAtom ANone) (VAtom ANone) (VAtom ANone)
           (TypeError "object is not iterable") 0 1 2 []
           eq_refl eq_refl eq_refl).
Defined.

Lemma postprocessor_default_uncollate_tensor_witness :
  _PostProcessor.forward no_class_new postprocessor_default t12 (0, [])
    = (Ret (VSeq TList [t1; t2]),
       (3, [Call A_per_batch_transform t12;
            Call A_uncollate_fn t12;
            Call A_per_sample_transform t1;
            Call A_per_sample_transform t2])) /\
  length [t1; t2] = 2.
Proof.
  apply (@postprocessor_default_uncollate_tensor nat no_class_new
           postprocessor_default t12 (mkTensor [2] [1; 2]%Z) 2 []
           [t1; t2] 0 1 3 []).
  - reflexivity.
  - reflexivity.
  - reflexivity.
  - reflexivity.
  - apply each_called_cons with (w1 := 2); [reflexivity|].
    apply each_called_cons with (w1 := 3); [reflexivity|].
    apply each_called_nil.
Defined.

End FailureExamples.

(* ================================================================== *)
(** ** Properties of [TabularClassifier]'s categorical arguments *)

Section TabularArguments.

Import TabularClassifier.

Lemma omap_py_iter_tuples (tuples : list (list PyVal)) :
  omap py_iter (map (VSeq TTuple) tuples) = Ret tuples.
Proof.
  rewrite (@omap_ret _ _ (fun v => match v with
                                   | VSeq _ l => l
                                   | _ => []
                                   end)).
  - rewrite map_map. now rewrite map_id.
  - intros v Hv. apply in_map_iff in Hv as (l & <- & _). reflexivity.
Qed.

(** The computation on a non-empty sequence of tuples. *)
Lemma categorical_arguments_tuples (ty : SeqType)
  (tuples : list (list PyVal)) :
  tuples <> [] ->
  categorical_arguments (VSeq ty (map (VSeq TTuple) tuples)) =
  rbind (unpack2 (py_zip tuples)) (fun dims =>
    Done (mkCatArgs (seq 0 (length tuples)) (fst dims) (snd dims))).
Proof.
  intros Hne. unfold categorical_arguments.
  cbn [py_len of_outcome rbind py_iter]. rewrite length_map.
  destruct tuples as [|t tuples]; [congruence|].
  cbn [length Nat.eqb]. rewrite omap_py_iter_tuples. reflexivity.
Qed.

(** X16: for a sequence of [n] pairs [(a_i, b_i)] (an empty one included),
    [cat_idxs] is [0, ..., n-1], [cat_dims] is the list of the [a_i] and
    [cat_emb_dim] the list of the [b_i]: three lists of length [n]. *)
Theorem categorical_arguments_of_pairs (ty : SeqType)
  (pairs : list (PyVal * PyVal)) :
  categorical_arguments (VSeq ty (map pair_value pairs)) =
  Done (mkCatArgs (seq 0 (length pairs)) (map fst pairs) (map snd pairs)) /\
  length (seq 0 (length pairs)) = length pairs /\
  length (map fst pairs) = length pairs /\
  length (map snd pairs) = length pairs.
Proof.
  split; [|now rewrite length_seq, !length_map].
  destruct pairs as [|p pairs]; [reflexivity|].
  replace (map pair_value (p :: pairs))
    with (map (VSeq TTuple) (map (fun q => [fst q; snd q]) (p :: pairs)))
    by (now rewrite map_map).
  rewrite categorical_arguments_tuples by discriminate.
  rewrite length_map. unfold py_zip.
  assert (Hmin : min_length (map (fun q : PyVal * PyVal => [fst q; snd q])
                               (p :: pairs)) = 2).
  { cbn [map]. apply min_length_uniform. intros c Hc.
    change (In c (map (fun q : PyVal * PyVal => [fst q; snd q]) (p :: pairs)))
      in Hc.
    apply in_map_iff in Hc as (q & <- & _). reflexivity. }
  rewrite Hmin. cbn [zip_star unpack2 rbind fst snd]. now rewrite !map_map.
Qed.

(** X17: when [embedding_sizes] has no length, as [None] (the default of the
    parameter), a number or a 0-d tensor, the computation raises
    [TypeError]. *)
Theorem categorical_arguments_without_length (embedding_sizes : PyVal)
  (e : Exn) :
  py_len embedding_sizes = Raise e ->
  exists msg,
    categorical_arguments embedding_sizes = Failed (Builtin (TypeError msg)).
Proof.
  intros Hlen. unfold categorical_arguments. rewrite Hlen. cbn.
  destruct embedding_sizes; try discriminate.
  - simpl in Hlen. destruct (shape t); inversion Hlen; eauto.
  - inversion Hlen; eauto.
Qed.

Lemma categorical_arguments_without_length_witness :
  exists msg,
    categorical_arguments (VAtom ANone) = Failed (Builtin (TypeError msg)).
Proof.
  exact (@categorical_arguments_without_length (VAtom ANone) _ eq_refl).
Defined.

Lemma chars_length (s : string) : length (chars s) = String.length s.
Proof. induction s as [|c s IH]; simpl; congruence. Qed.

(** Iteration yields as many items as [len] announces. *)
Lemma py_iter_length (v : PyVal) (n : nat) (l : list PyVal) :
  py_len v = Ret n -> py_iter v = Ret l -> length l = n.
Proof.
  destruct v; simpl; intros Hn Hl; try discriminate.
  - unfold torch_unbind in Hl. destruct (shape t) as [|k rest];
      [discriminate|]. inversion Hn; subst. inversion Hl; subst.
    now rewrite !length_map, chunks_length.
  - inversion Hn; inversion Hl; subst. now rewrite length_map.
  - inversion Hn; inversion Hl; subst. reflexivity.
  - inversion Hn; inversion Hl; subst. reflexivity.
  - inversion Hn; inversion Hl; subst. now rewrite length_map, chars_length.
  - inversion Hn; inversion Hl; subst. reflexivity.
Qed.

(** X24: whenever the computation succeeds, [cat_idxs], [cat_dims] and
    [cat_emb_dim] have the same length, the length of [embedding_sizes]. *)
Theorem categorical_arguments_same_length (embedding_sizes : PyVal)
  (args : CatArgs) :
  categorical_arguments embedding_sizes = Done args ->
  py_len embedding_sizes = Ret (length (cat_idxs args)) /\
  length (cat_dims args) = length (cat_idxs args) /\
  length (cat_emb_dim args) = length (cat_idxs args).
Proof.
  unfold categorical_arguments.
  destruct (py_len embedding_sizes) as [n|e] eqn:Hlen; [|discriminate].
  cbn [of_outcome rbind].
  destruct (Nat.eqb_spec n 0) as [->|Hn].
  - cbn. intros H; inversion H; subst. cbn. auto.
  - destruct (py_iter embedding_sizes) as [tuples|e] eqn:Hit; [|discriminate].
    cbn [of_outcome rbind].
    destruct (omap py_iter tuples) as [cols|e] eqn:Hcols; [|discriminate].
    cbn [of_outcome rbind].
    assert (Hrow : forall t, In t (py_zip cols) -> length t = n).
    { intros t Ht. unfold py_zip in Ht.
      rewrite (zip_star_row_length _ _ _ Ht), (omap_length _ _ Hcols).
      exact (py_iter_length _ Hlen Hit). }
    destruct (py_zip cols) as [|a [|b [|c rows]]]; try discriminate.
    cbn. intros H; inversion H; subst. cbn.
    rewrite length_seq. repeat split.
    + apply Hrow. now left.
    + apply Hrow. right; now left.
Qed.

Lemma categorical_arguments_same_length_witness :
  let es := VSeq TList [VSeq TTuple [VAtom (AInt 10); VAtom (AInt 4)];
                        VSeq TTuple [VAtom (AInt 7); VAtom (AInt 3)]] in
  let args := mkCatArgs [0; 1] [VAtom (AInt 10); VAtom (AInt 7)]
                [VAtom (AInt 4); VAtom (AInt 3)] in
  categorical_arguments es = Done args /\
  py_len es = Ret 2 /\
  length (cat_dims args) = 2 /\
  length (cat_emb_dim args) = 2.
Proof.
  split; [reflexivity|].
  exact (@categorical_arguments_same_length
           (VSeq TList [VSeq TTuple [VAtom (AInt 10); VAtom (AInt 4)];
                        VSeq TTuple [VAtom (AInt 7); VAtom (AInt 3)]])
           _ eq_refl).
Defined.

Lemma unpack2_wrong_length (rows : list (list PyVal)) :
  length rows <> 2 -> exists msg, unpack2 rows = Failed (ValueError msg).
Proof.
  destruct rows as [|a [|b [|c rows]]]; simpl; intros H;
    try congruence; eauto.
Qed.

(** X18: when [embedding_sizes] is a non-empty sequence of tuples the
    shortest of which does not have exactly two entries, the unpacking into
    [cat_dims, cat_emb_dim] raises [ValueError]. *)
Theorem categorical_arguments_wrong_arity (ty : SeqType)
  (tuples : list (list PyVal)) :
  tuples <> [] ->
  min_length tuples <> 2 ->
  exists msg,
    categorical_arguments (VSeq ty (map (VSeq TTuple) tuples))
    = Failed (ValueError msg).
Proof.
  intros Hne Hmin. rewrite categorical_arguments_tuples by exact Hne.
  destruct (@unpack2_wrong_length (py_zip tuples)) as [msg ->].
  - unfold py_zip. now rewrite zip_star_length.
  - exists msg. reflexivity.
Qed.

Lemma categorical_arguments_wrong_arity_witness :
  exists msg,
    categorical_arguments
      (VSeq TList [VSeq TTuple [VAtom (AInt 10); VAtom (AInt 4)];
                   VSeq TTuple [VAtom (AInt 7)]])
    = Failed (ValueError msg).
Proof.
  apply (@categorical_arguments_wrong_arity TList
           [[VAtom (AInt 10); VAtom (AInt 4)]; [VAtom (AInt 7)]]).
  - discriminate.
  - discriminate.
Defined.

(** X19: when the shortest tuple of a non-empty [embedding_sizes] has exactly
    two entries, the computation succeeds and takes the first two entries of
    every tuple; the further entries of longer tuples are ignored. *)
Theorem categorical_arguments_truncates (ty : SeqType)
  (tuples : list (list PyVal)) :
  tuples <> [] ->
  min_length tuples = 2 ->
  categorical_arguments (VSeq ty (map (VSeq TTuple) tuples)) =
  Done (mkCatArgs (seq 0 (length tuples))
          (map (fun t => nth 0 t (VAtom ANone)) tuples)
          (map (fun t => nth 1 t (VAtom ANone)) tuples)).
Proof.
  intros Hne Hmin. rewrite categorical_arguments_tuples by exact Hne.
  unfold py_zip. rewrite Hmin, zip_star_transpose. reflexivity.
Qed.

Lemma categorical_arguments_truncates_witness :
  categorical_arguments
    (VSeq TList [VSeq TTuple [VAtom (AInt 10); VAtom (AInt 4)];
                 VSeq TTuple [VAtom (AInt 7); VAtom (AInt 3); VAtom (AInt 9)]])
  = Done (mkCatArgs [0; 1]
            [VAtom (AInt 10); VAtom (AInt 7)]
            [VAtom (AInt 4); VAtom (AInt 3)]).
Proof.
  apply (@categorical_arguments_truncates TList
           [[VAtom (AInt 10); VAtom (AInt 4)];
            [VAtom (AInt 7); VAtom (AInt 3); VAtom (AInt 9)]]).
  - discriminate.
  - reflexivity.
Defined.

End TabularArguments.

(* ================================================================== *)
(** ** Properties of [ImageEmbedder.forward] *)

Lemma fold_left_max_shift (l : list Z) (a b : Z) :
  fold_left Z.max l (Z.max a b) = Z.max a (fold_left Z.max l b).
Proof.
  revert b; induction l as [|c l IH]; intros b; simpl; [reflexivity|].
  now rewrite <- Z.max_assoc, IH.
Qed.

Lemma list_max_Z_cons (x : Z) (l : list Z) :
  l <> [] -> list_max_Z (x :: l) = Z.max x (list_max_Z l).
Proof.
  destruct l as [|y l]; [congruence|]. intros _. simpl.
  apply fold_left_max_shift.
Qed.

Lemma list_max_Z_app (a b : list Z) :
  a <> [] -> b <> [] ->
  list_max_Z (a ++ b) = Z.max (list_max_Z a) (list_max_Z b).
Proof.
  intros Ha Hb. induction a as [|x a IH]; [congruence|].
  destruct a as [|y a].
  - simpl app. now rewrite list_max_Z_cons.
  - rewrite <- app_comm_cons.
    rewrite list_max_Z_cons by discriminate.
    rewrite IH by discriminate.
    rewrite (@list_max_Z_cons x (y :: a)) by discriminate.
    apply Z.max_assoc.
Qed.

Lemma firstn_plus {A} (a b : nat) (l : list A) :
  firstn (a + b) l = firstn a l ++ firstn b (skipn a l).
Proof.
  revert l; induction a as [|a IH]; intros l; [reflexivity|].
  destruct l as [|x l]; simpl.
  - now rewrite firstn_nil.
  - now rewrite IH.
Qed.

Lemma chunks_plus (a b size : nat) (l : list Z) :
  chunks (a + b) size l = chunks a size l ++ chunks b size (skipn (a * size) l).
Proof.
  revert l; induction a as [|a IH]; intros l; [reflexivity|].
  cbn [Nat.add chunks app]. f_equal. rewrite IH, skipn_skipn.
  now replace (a * size + size) with (S a * size) by lia.
Qed.

(** The maximum of the maxima of the rows of a block is the maximum of the
    block. *)
Lemma block_max (h w : nat) :
  0 < w -> forall l, 0 < h -> h * w <= length l ->
  list_max_Z (map list_max_Z (chunks h w l)) = list_max_Z (firstn (h * w) l).
Proof.
  intros Hw. induction h as [|h IH]; intros l Hh Hlen; [lia|].
  cbn [chunks map].
  replace (S h * w) with (w + h * w) in * by lia.
  rewrite firstn_plus.
  destruct h as [|h].
  - simpl. now rewrite app_nil_r.
  - assert (Hrow : firstn w l <> []).
    { intros Hnil. apply (f_equal (@length Z)) in Hnil.
      rewrite length_firstn in Hnil. simpl in Hnil. lia. }
    assert (Hrest : firstn (S h * w) (skipn w l) <> []).
    { intros Hnil. apply (f_equal (@length Z)) in Hnil.
      rewrite length_firstn, length_skipn in Hnil. simpl in Hnil. nia. }
    rewrite list_max_Z_cons by (cbn [chunks map]; discriminate).
    rewrite IH by (try rewrite length_skipn; lia).
    now rewrite list_max_Z_app.
Qed.

(** Reducing the last dimension twice is reducing the last two at once. *)
Lemma max_twice (h w : nat) :
  0 < h -> 0 < w ->
  forall n l, length l = n * (h * w) ->
  map list_max_Z (chunks n h (map list_max_Z (chunks (n * h) w l)))
  = map list_max_Z (chunks n (h * w) l).
Proof.
  intros Hh Hw. induction n as [|n IH]; intros l Hlen; [reflexivity|].
  replace (S n * h) with (h + n * h) by lia.
  rewrite chunks_plus, map_app. cbn [chunks map].
  assert (Hrows : length (map list_max_Z (chunks h w l)) = h)
    by now rewrite length_map, chunks_length.
  assert (Hfirst : firstn h (map list_max_Z (chunks h w l))
                   = map list_max_Z (chunks h w l))
    by (apply firstn_all2; lia).
  assert (Hskip : skipn h (map list_max_Z (chunks h w l)) = [])
    by (apply skipn_all2; lia).
  rewrite firstn_app, skipn_app, Hrows, Nat.sub_diag, Hfirst, Hskip.
  cbn [firstn skipn]. rewrite app_nil_r. cbn [app].
  f_equal.
  - apply block_max; try assumption. nia.
  - apply IH. rewrite length_skipn. nia.
Qed.

Section ImageEmbedderForward.

Variable W : Type.
Variable torch_mean_last : Tensor -> Result Tensor.

Import ImageEmbedder.

(** X20: with [torch.max] as pooling function and an [embedding_dim] set, a
    4-d backbone output of shape [(b, c, h, w)] with [h, w > 0] reaches the
    head as the tensor of shape [(b, c)] holding the maximum of each
    [h * w] block. *)
Theorem embedder_forward_max_pools (self : ImageEmbedder.t W)
  (x : PyVal) (tx : Tensor) (d : Z) (b c h w : nat) (s s1 : W) :
  pooling_fn self = torch_max ->
  embedding_dim self = Some d ->
  d <> 0%Z ->
  backbone self x s = (Ret (VTensor tx), s1) ->
  shape tx = [b; c; h; w] ->
  0 < h -> 0 < w ->
  tensor_wf tx ->
  let pooled :=
    VTensor (mkTensor [b; c]
               (map list_max_Z (chunks (b * c) (h * w) (data tx)))) in
  forward torch_mean_last self x s =
    (of_outcome (fst (head self pooled s1)), snd (head self pooled s1)).
Proof.
  intros Hpool Hdim Hd Hback Hs Hh Hw Hwf pooled. unfold forward.
  rewrite Hback. cbn [isinstance_tuple py_dim]. rewrite Hs, Hdim.
  cbn [length Nat.eqb truthy andb].
  destruct (Z.eqb_spec d 0) as [->|_]; [congruence|]. cbn [negb].
  unfold apply_pool. rewrite Hpool.
  unfold torch_max_last at 1. rewrite Hs. cbn [rev app].
  destruct (Nat.eqb_spec w 0) as [->|_]; [lia|]. cbn [rbind].
  unfold torch_max_last. cbn [shape data rev app].
  destruct (Nat.eqb_spec h 0) as [->|_]; [lia|]. cbn [rbind].
  unfold tensor_wf in Hwf. rewrite Hs in Hwf. cbn [numel fold_right] in Hwf.
  cbn [numel fold_right].
  replace (b * (c * (h * 1))) with (b * c * h) by lia.
  replace (b * (c * 1)) with (b * c) by lia.
  rewrite (@max_twice h w Hh Hw (b * c) (data tx)) by (rewrite Hwf; lia).
  fold pooled. now destruct (head self pooled s1).
Qed.

(** X21: without pooling, that is when the backbone returns a tensor that
    is not 4-d or when [embedding_dim] is [None] or 0, the head receives the
    backbone's tensor as it is. *)
Theorem embedder_forward_without_pooling (self : ImageEmbedder.t W)
  (x : PyVal) (tx : Tensor) (s s1 : W) :
  backbone self x s = (Ret (VTensor tx), s1) ->
  length (shape tx) <> 4 \/ embedding_dim self = None \/
    embedding_dim self = Some 0%Z ->
  forward torch_mean_last self x s =
    (of_outcome (fst (head self (VTensor tx) s1)),
     snd (head self (VTensor tx) s1)).
Proof.
  intros Hback Hno. unfold forward. rewrite Hback.
  cbn [isinstance_tuple py_dim].
  assert (Hgate : Nat.eqb (length (shape tx)) 4
                  && truthy (embedding_dim self) = false).
  { destruct Hno as [Hd|[Hn|Hz]].
    - apply Nat.eqb_neq in Hd. now rewrite Hd.
    - rewrite Hn. apply andb_false_r.
    - rewrite Hz. apply andb_false_r. }
  rewrite Hgate. now destruct (head self (VTensor tx) s1).
Qed.

(** X22: a backbone output that is a list (or anything that is neither a
    tuple nor a tensor) makes [forward] raise [AttributeError], and an empty
    tuple makes it raise [IndexError]; the head is not called. *)
Theorem embedder_forward_bad_output (self : ImageEmbedder.t W)
  (x v : PyVal) (s s1 : W) :
  backbone self x s = (Ret v, s1) ->
  (isinstance_tuple v = false -> isinstance_Tensor v = false ->
   exists msg, forward torch_mean_last self x s
               = (Failed (AttributeError msg), s1)) /\
  (v = VSeq TTuple [] ->
   exists msg, forward torch_mean_last self x s
               = (Failed (Builtin (IndexError msg)), s1)).
Proof.
  intros Hback. split.
  - intros Htup Hten. unfold forward. rewrite Hback, Htup.
    destruct v; try discriminate; cbn [py_dim]; eauto.
  - intros ->. unfold forward. rewrite Hback. cbn. eauto.
Qed.

(** X23: from a tuple returned by the backbone only the last item is used:
    [forward] continues as it would had the backbone returned that item. *)
Theorem embedder_forward_last_of_tuple (self self' : ImageEmbedder.t W)
  (x y : PyVal) (front : list PyVal) (s s1 : W) :
  head self' = head self ->
  embedding_dim self' = embedding_dim self ->
  pooling_fn self' = pooling_fn self ->
  backbone self x s = (Ret (VSeq TTuple (front ++ [y])), s1) ->
  backbone self' x s = (Ret y, s1) ->
  isinstance_tuple y = false ->
  forward torch_mean_last self x s = forward torch_mean_last self' x s.
Proof.
  intros Hhead Hdim Hpool Hback Hback' Hy. unfold forward.
  rewrite Hback, Hback', Hy. cbn [isinstance_tuple last_item].
  rewrite rev_app_distr. cbn [rev app].
  unfold apply_pool. now rewrite Hhead, Hdim, Hpool.
Qed.

End ImageEmbedderForward.

(* ------------------------------------------------------------------ *)
(** *** [ImageEmbedder.forward] on the example instances *)

Section EmbedderExamples.

Import Examples MoreExamples ImageEmbedder.

Lemma embedder_forward_max_pools_witness :
  forward no_mean (embedder torch_max (Some 8%Z) (VTensor image)) one 0
  = (Done (VTensor (mkTensor [1; 1] [9%Z])), 2).
Proof.
  apply (@embedder_forward_max_pools nat no_mean
           (embedder torch_max (Some 8%Z) (VTensor image)) one image 8%Z
           1 1 2 2 0 1).
  - reflexivity.
  - reflexivity.
  - discriminate.
  - reflexivity.
  - reflexivity.
  - lia.
  - lia.
  - reflexivity.
Defined.

Lemma embedder_forward_without_pooling_witness :
  forward no_mean (embedder torch_max None (VTensor image)) one 0
  = (Done (VTensor image), 2).
Proof.
  apply (@embedder_forward_without_pooling nat no_mean
           (embedder torch_max None (VTensor image)) one image 0 1).
  - reflexivity.
  - right; left; reflexivity.
Defined.

Lemma embedder_forward_bad_output_witness :
  (exists msg,
     forward no_mean
       (embedder torch_max None (VSeq TList [VTensor image])) one 0
     = (Failed (AttributeError msg), 1)) /\
  (exists msg,
     forward no_mean (embedder torch_max None (VSeq TTuple [])) one 0
     = (Failed (Builtin (IndexError msg)), 1)).
Proof.
  split.
  - apply (proj1 (@embedder_forward_bad_output nat no_mean
                    (embedder torch_max None (VSeq TList [VTensor image]))
                    one (VSeq TList [VTensor image]) 0 1 eq_refl));
      reflexivity.
  - apply (proj2 (@embedder_forward_bad_output nat no_mean
                    (embedder torch_max None (VSeq TTuple []))
                    one (VSeq TTuple []) 0 1 eq_refl)).
    reflexivity.
Defined.

Lemma embedder_forward_last_of_tuple_witness :
  forward no_mean
    (embedder torch_max (Some 8%Z) (VSeq TTuple [one; VTensor image])) one 0
  = forward no_mean (embedder torch_max (Some 8%Z) (VTensor image)) one 0.
Proof.
  apply (@embedder_forward_last_of_tuple nat no_mean
           (embedder torch_max (Some 8%Z) (VSeq TTuple [one; VTensor image]))
           (embedder torch_max (Some 8%Z) (VTensor image))
           one (VTensor image) [one] 0 1); reflexivity.
Defined.

End EmbedderExamples.

(* ------------------------------------------------------------------ *)
(** *** [_PostProcessor.forward] on other containers *)

Section PostProcessorContainers.

Import Examples MoreExamples.

(** C7, as stated, fails when [uncollate_fn] returns a namedtuple with two
    fields: after the transforms, the class is called on the one list of
    transformed samples and raises, so [forward] returns no container. *)
Lemma postprocessor_forward_namedtuple_counterexample :
  _PostProcessor.forward no_class_new postprocessor_no_uncollate point (0, [])
    = (Raise (TypeError "__new__() wrong number of positional arguments"),
       (4, [Call A_per_batch_transform point;
            Call A_uncollate_fn point;
            Call A_per_sample_transform one;
            Call A_per_sample_transform two])) /\
  forall r st,
    _PostProcessor.forward no_class_new postprocessor_no_uncollate point (0, [])
    <> (Ret r, st).
Proof.
  split; [reflexivity|]. intros r st. discriminate.
Qed.

Lemma postprocessor_forward_falsy_save_fn_witness :
  _PostProcessor.forward no_class_new postprocessor_empty_saver t12 (0, [])
  = (Ret (VSeq TList [t1; t2]),
     (4, [Call A_per_batch_transform t12;
          Call A_uncollate_fn t12;
          Call A_per_sample_transform t1;
          Call A_per_sample_transform t2])).
Proof.
  apply (@postprocessor_forward_falsy_save_fn nat no_class_new
           postprocessor_empty_saver (_PostProcessor.mkSaveFn identity false)
           t12 t12 TList [t1; t2] [t1; t2] 0 1 2 4 []).
  - reflexivity.
  - reflexivity.
  - left; reflexivity.
  - reflexivity.
  - reflexivity.
  - apply each_called_cons with (w1 := 3); [reflexivity|].
    apply each_called_cons with (w1 := 4); [reflexivity|].
    apply each_called_nil.
Defined.

End PostProcessorContainers.

(** A [defaultdict] batch cannot be rebuilt from the dict of a sample. *)
Example uncollate_defaultdict_raises :
  default_uncollate
    (VMapping "defaultdict" [("x", VSeq TList [VAtom (AInt 1)])])
  = Raise (TypeError "first argument must be callable or None").
Proof. reflexivity. Qed.
